(** * A shallow embedding of HN6_Bot_ADRES_BOOK_OOP.py

    The assistant bot keeps an [AddressBook] (a [UserDict] from names to
    [Record]s); each [Record] owns a [Name] and a list of [Phone] objects.
    Python strings are modelled as lists of Unicode code points, Python
    exceptions as the constructors of [exn], and methods that mutate
    [self] as functions in a state-and-exception monad whose state survives
    a raised exception (a Python method that raises half-way keeps the
    mutations it has already made). *)

From Stdlib Require Import String Ascii List Arith NArith Bool Lia.
Import ListNotations.
Local Open Scope N_scope.

(* ------------------------------------------------------------------ *)
(** ** Python strings *)

(** A [str] is a sequence of Unicode code points. *)
Definition pystr := list N.

(** String literals of the source (all ASCII) as [str] values. *)
Definition lit (s : string) : pystr := map N_of_ascii (list_ascii_of_string s).

Definition str_eqb (a b : pystr) : bool :=
  if list_eq_dec N.eq_dec a b then true else false.

Lemma str_eqb_eq a b : str_eqb a b = true <-> a = b.
Proof. unfold str_eqb; destruct (list_eq_dec N.eq_dec a b); split; congruence. Qed.

Lemma str_eqb_refl a : str_eqb a a = true.
Proof. apply str_eqb_eq; reflexivity. Qed.

Definition in_range (lo hi c : N) : bool := (lo <=? c) && (c <=? hi).

(** [str.isspace] per character: the code points Python treats as
    whitespace (those used by [str.strip] and [str.split] without
    arguments). *)
Definition py_isspace_char (c : N) : bool :=
  in_range 9 13 c || in_range 28 32 c || (c =? 133) || (c =? 160)
  || (c =? 5760) || in_range 8192 8202 c || (c =? 8232) || (c =? 8233)
  || (c =? 8239) || (c =? 8287) || (c =? 12288).

(** [str.isdigit] per character: the code points whose Unicode
    Numeric_Type is Digit or Decimal, as maximal ranges of the Unicode 14.0
    database used by CPython 3.11 (every [chr(c)] with [chr(c).isdigit()]). *)
Definition isdigit_ranges : list (N * N) :=
  [ (48, 57); (178, 179); (185, 185); (1632, 1641); (1776, 1785);
    (1984, 1993); (2406, 2415); (2534, 2543); (2662, 2671); (2790, 2799);
    (2918, 2927); (3046, 3055); (3174, 3183); (3302, 3311); (3430, 3439);
    (3558, 3567); (3664, 3673); (3792, 3801); (3872, 3881); (4160, 4169);
    (4240, 4249); (4969, 4977); (6112, 6121); (6160, 6169); (6470, 6479);
    (6608, 6618); (6784, 6793); (6800, 6809); (6992, 7001); (7088, 7097);
    (7232, 7241); (7248, 7257); (8304, 8304); (8308, 8313); (8320, 8329);
    (9312, 9320); (9332, 9340); (9352, 9360); (9450, 9450); (9461, 9469);
    (9471, 9471); (10102, 10110); (10112, 10120); (10122, 10130);
    (42528, 42537); (43216, 43225); (43264, 43273); (43472, 43481);
    (43504, 43513); (43600, 43609); (44016, 44025); (65296, 65305);
    (66720, 66729); (68160, 68163); (68912, 68921); (69216, 69224);
    (69714, 69722); (69734, 69743); (69872, 69881); (69942, 69951);
    (70096, 70105); (70384, 70393); (70736, 70745); (70864, 70873);
    (71248, 71257); (71360, 71369); (71472, 71481); (71904, 71913);
    (72016, 72025); (72784, 72793); (73040, 73049); (73120, 73129);
    (92768, 92777); (92864, 92873); (93008, 93017); (120782, 120831);
    (123200, 123209); (123632, 123641); (125264, 125273); (127232, 127242);
    (130032, 130041) ].

Definition py_isdigit_char (c : N) : bool :=
  existsb (fun r => in_range (fst r) (snd r) c) isdigit_ranges.

(** [str.isdigit]: true iff the string is non-empty and every character is
    a digit. *)
Definition py_isdigit (s : pystr) : bool :=
  match s with
  | [] => false
  | _ => forallb py_isdigit_char s
  end.

(** [str.lower] per character.  [lower_table] lists, in increasing order,
    every code point [c] whose lower case [chr(c).lower()] is a single code
    point different from [c], with that code point (Unicode 14.0 database of
    CPython 3.11).  The one code point whose lower case has two code points
    is U+0130 (LATIN CAPITAL LETTER I WITH DOT ABOVE), lowered to
    U+0069 U+0307; every other code point is its own lower case. *)
Definition lower_table : list (N * N) :=
  [ (65, 97); (66, 98); (67, 99); (68, 100); (69, 101); (70, 102); (71, 103);
    (72, 104); (73, 105); (74, 106); (75, 107); (76, 108); (77, 109);
    (78, 110); (79, 111); (80, 112); (81, 113); (82, 114); (83, 115);
    (84, 116); (85, 117); (86, 118); (87, 119); (88, 120); (89, 121);
    (90, 122); (192, 224); (193, 225); (194, 226); (195, 227); (196, 228);
    (197, 229); (198, 230); (199, 231); (200, 232); (201, 233); (202, 234);
    (203, 235); (204, 236); (205, 237); (206, 238); (207, 239); (208, 240);
    (209, 241); (210, 242); (211, 243); (212, 244); (213, 245); (214, 246);
    (216, 248); (217, 249); (218, 250); (219, 251); (220, 252); (221, 253);
    (222, 254); (256, 257); (258, 259); (260, 261); (262, 263); (264, 265);
    (266, 267); (268, 269); (270, 271); (272, 273); (274, 275); (276, 277);
    (278, 279); (280, 281); (282, 283); (284, 285); (286, 287); (288, 289);
    (290, 291); (292, 293); (294, 295); (296, 297); (298, 299); (300, 301);
    (302, 303); (306, 307); (308, 309); (310, 311); (313, 314); (315, 316);
    (317, 318); (319, 320); (321, 322); (323, 324); (325, 326); (327, 328);
    (330, 331); (332, 333); (334, 335); (336, 337); (338, 339); (340, 341);
    (342, 343); (344, 345); (346, 347); (348, 349); (350, 351); (352, 353);
    (354, 355); (356, 357); (358, 359); (360, 361); (362, 363); (364, 365);
    (366, 367); (368, 369); (370, 371); (372, 373); (374, 375); (376, 255);
    (377, 378); (379, 380); (381, 382); (385, 595); (386, 387); (388, 389);
    (390, 596); (391, 392); (393, 598); (394, 599); (395, 396); (398, 477);
    (399, 601); (400, 603); (401, 402); (403, 608); (404, 611); (406, 617);
    (407, 616); (408, 409); (412, 623); (413, 626); (415, 629); (416, 417);
    (418, 419); (420, 421); (422, 640); (423, 424); (425, 643); (428, 429);
    (430, 648); (431, 432); (433, 650); (434, 651); (435, 436); (437, 438);
    (439, 658); (440, 441); (444, 445); (452, 454); (453, 454); (455, 457);
    (456, 457); (458, 460); (459, 460); (461, 462); (463, 464); (465, 466);
    (467, 468); (469, 470); (471, 472); (473, 474); (475, 476); (478, 479);
    (480, 481); (482, 483); (484, 485); (486, 487); (488, 489); (490, 491);
    (492, 493); (494, 495); (497, 499); (498, 499); (500, 501); (502, 405);
    (503, 447); (504, 505); (506, 507); (508, 509); (510, 511); (512, 513);
    (514, 515); (516, 517); (518, 519); (520, 521); (522, 523); (524, 525);
    (526, 527); (528, 529); (530, 531); (532, 533); (534, 535); (536, 537);
    (538, 539); (540, 541); (542, 543); (544, 414); (546, 547); (548, 549);
    (550, 551); (552, 553); (554, 555); (556, 557); (558, 559); (560, 561);
    (562, 563); (570, 11365); (571, 572); (573, 410); (574, 11366);
    (577, 578); (579, 384); (580, 649); (581, 652); (582, 583); (584, 585);
    (586, 587); (588, 589); (590, 591); (880, 881); (882, 883); (886, 887);
    (895, 1011); (902, 940); (904, 941); (905, 942); (906, 943); (908, 972);
    (910, 973); (911, 974); (913, 945); (914, 946); (915, 947); (916, 948);
    (917, 949); (918, 950); (919, 951); (920, 952); (921, 953); (922, 954);
    (923, 955); (924, 956); (925, 957); (926, 958); (927, 959); (928, 960);
    (929, 961); (931, 963); (932, 964); (933, 965); (934, 966); (935, 967);
    (936, 968); (937, 969); (938, 970); (939, 971); (975, 983); (984, 985);
    (986, 987); (988, 989); (990, 991); (992, 993); (994, 995); (996, 997);
    (998, 999); (1000, 1001); (1002, 1003); (1004, 1005); (1006, 1007);
    (1012, 952); (1015, 1016); (1017, 1010); (1018, 1019); (1021, 891);
    (1022, 892); (1023, 893); (1024, 1104); (1025, 1105); (1026, 1106);
    (1027, 1107); (1028, 1108); (1029, 1109); (1030, 1110); (1031, 1111);
    (1032, 1112); (1033, 1113); (1034, 1114); (1035, 1115); (1036, 1116);
    (1037, 1117); (1038, 1118); (1039, 1119); (1040, 1072); (1041, 1073);
    (1042, 1074); (1043, 1075); (1044, 1076); (1045, 1077); (1046, 1078);
    (1047, 1079); (1048, 1080); (1049, 1081); (1050, 1082); (1051, 1083);
    (1052, 1084); (1053, 1085); (1054, 1086); (1055, 1087); (1056, 1088);
    (1057, 1089); (1058, 1090); (1059, 1091); (1060, 1092); (1061, 1093);
    (1062, 1094); (1063, 1095); (1064, 1096); (1065, 1097); (1066, 1098);
    (1067, 1099); (1068, 1100); (1069, 1101); (1070, 1102); (1071, 1103);
    (1120, 1121); (1122, 1123); (1124, 1125); (1126, 1127); (1128, 1129);
    (1130, 1131); (1132, 1133); (1134, 1135); (1136, 1137); (1138, 1139);
    (1140, 1141); (1142, 1143); (1144, 1145); (1146, 1147); (1148, 1149);
    (1150, 1151); (1152, 1153); (1162, 1163); (1164, 1165); (1166, 1167);
    (1168, 1169); (1170, 1171); (1172, 1173); (1174, 1175); (1176, 1177);
    (1178, 1179); (1180, 1181); (1182, 1183); (1184, 1185); (1186, 1187);
    (1188, 1189); (1190, 1191); (1192, 1193); (1194, 1195); (1196, 1197);
    (1198, 1199); (1200, 1201); (1202, 1203); (1204, 1205); (1206, 1207);
    (1208, 1209); (1210, 1211); (1212, 1213); (1214, 1215); (1216, 1231);
    (1217, 1218); (1219, 1220); (1221, 1222); (1223, 1224); (1225, 1226);
    (1227, 1228); (1229, 1230); (1232, 1233); (1234, 1235); (1236, 1237);
    (1238, 1239); (1240, 1241); (1242, 1243); (1244, 1245); (1246, 1247);
    (1248, 1249); (1250, 1251); (1252, 1253); (1254, 1255); (1256, 1257);
    (1258, 1259); (1260, 1261); (1262, 1263); (1264, 1265); (1266, 1267);
    (1268, 1269); (1270, 1271); (1272, 1273); (1274, 1275); (1276, 1277);
    (1278, 1279); (1280, 1281); (1282, 1283); (1284, 1285); (1286, 1287);
    (1288, 1289); (1290, 1291); (1292, 1293); (1294, 1295); (1296, 1297);
    (1298, 1299); (1300, 1301); (1302, 1303); (1304, 1305); (1306, 1307);
    (1308, 1309); (1310, 1311); (1312, 1313); (1314, 1315); (1316, 1317);
    (1318, 1319); (1320, 1321); (1322, 1323); (1324, 1325); (1326, 1327);
    (1329, 1377); (1330, 1378); (1331, 1379); (1332, 1380); (1333, 1381);
    (1334, 1382); (1335, 1383); (1336, 1384); (1337, 1385); (1338, 1386);
    (1339, 1387); (1340, 1388); (1341, 1389); (1342, 1390); (1343, 1391);
    (1344, 1392); (1345, 1393); (1346, 1394); (1347, 1395); (1348, 1396);
    (1349, 1397); (1350, 1398); (1351, 1399); (1352, 1400); (1353, 1401);
    (1354, 1402); (1355, 1403); (1356, 1404); (1357, 1405); (1358, 1406);
    (1359, 1407); (1360, 1408); (1361, 1409); (1362, 1410); (1363, 1411);
    (1364, 1412); (1365, 1413); (1366, 1414); (4256, 11520); (4257, 11521);
    (4258, 11522); (4259, 11523); (4260, 11524); (4261, 11525);
    (4262, 11526); (4263, 11527); (4264, 11528); (4265, 11529);
    (4266, 11530); (4267, 11531); (4268, 11532); (4269, 11533);
    (4270, 11534); (4271, 11535); (4272, 11536); (4273, 11537);
    (4274, 11538); (4275, 11539); (4276, 11540); (4277, 11541);
    (4278, 11542); (4279, 11543); (4280, 11544); (4281, 11545);
    (4282, 11546); (4283, 11547); (4284, 11548); (4285, 11549);
    (4286, 11550); (4287, 11551); (4288, 11552); (4289, 11553);
    (4290, 11554); (4291, 11555); (4292, 11556); (4293, 11557);
    (4295, 11559); (4301, 11565); (5024, 43888); (5025, 43889);
    (5026, 43890); (5027, 43891); (5028, 43892); (5029, 43893);
    (5030, 43894); (5031, 43895); (5032, 43896); (5033, 43897);
    (5034, 43898); (5035, 43899); (5036, 43900); (5037, 43901);
    (5038, 43902); (5039, 43903); (5040, 43904); (5041, 43905);
    (5042, 43906); (5043, 43907); (5044, 43908); (5045, 43909);
    (5046, 43910); (5047, 43911); (5048, 43912); (5049, 43913);
    (5050, 43914); (5051, 43915); (5052, 43916); (5053, 43917);
    (5054, 43918); (5055, 43919); (5056, 43920); (5057, 43921);
    (5058, 43922); (5059, 43923); (5060, 43924); (5061, 43925);
    (5062, 43926); (5063, 43927); (5064, 43928); (5065, 43929);
    (5066, 43930); (5067, 43931); (5068, 43932); (5069, 43933);
    (5070, 43934); (5071, 43935); (5072, 43936); (5073, 43937);
    (5074, 43938); (5075, 43939); (5076, 43940); (5077, 43941);
    (5078, 43942); (5079, 43943); (5080, 43944); (5081, 43945);
    (5082, 43946); (5083, 43947); (5084, 43948); (5085, 43949);
    (5086, 43950); (5087, 43951); (5088, 43952); (5089, 43953);
    (5090, 43954); (5091, 43955); (5092, 43956); (5093, 43957);
    (5094, 43958); (5095, 43959); (5096, 43960); (5097, 43961);
    (5098, 43962); (5099, 43963); (5100, 43964); (5101, 43965);
    (5102, 43966); (5103, 43967); (5104, 5112); (5105, 5113); (5106, 5114);
    (5107, 5115); (5108, 5116); (5109, 5117); (7312, 4304); (7313, 4305);
    (7314, 4306); (7315, 4307); (7316, 4308); (7317, 4309); (7318, 4310);
    (7319, 4311); (7320, 4312); (7321, 4313); (7322, 4314); (7323, 4315);
    (7324, 4316); (7325, 4317); (7326, 4318); (7327, 4319); (7328, 4320);
    (7329, 4321); (7330, 4322); (7331, 4323); (7332, 4324); (7333, 4325);
    (7334, 4326); (7335, 4327); (7336, 4328); (7337, 4329); (7338, 4330);
    (7339, 4331); (7340, 4332); (7341, 4333); (7342, 4334); (7343, 4335);
    (7344, 4336); (7345, 4337); (7346, 4338); (7347, 4339); (7348, 4340);
    (7349, 4341); (7350, 4342); (7351, 4343); (7352, 4344); (7353, 4345);
    (7354, 4346); (7357, 4349); (7358, 4350); (7359, 4351); (7680, 7681);
    (7682, 7683); (7684, 7685); (7686, 7687); (7688, 7689); (7690, 7691);
    (7692, 7693); (7694, 7695); (7696, 7697); (7698, 7699); (7700, 7701);
    (7702, 7703); (7704, 7705); (7706, 7707); (7708, 7709); (7710, 7711);
    (7712, 7713); (7714, 7715); (7716, 7717); (7718, 7719); (7720, 7721);
    (7722, 7723); (7724, 7725); (7726, 7727); (7728, 7729); (7730, 7731);
    (7732, 7733); (7734, 7735); (7736, 7737); (7738, 7739); (7740, 7741);
    (7742, 7743); (7744, 7745); (7746, 7747); (7748, 7749); (7750, 7751);
    (7752, 7753); (7754, 7755); (7756, 7757); (7758, 7759); (7760, 7761);
    (7762, 7763); (7764, 7765); (7766, 7767); (7768, 7769); (7770, 7771);
    (7772, 7773); (7774, 7775); (7776, 7777); (7778, 7779); (7780, 7781);
    (7782, 7783); (7784, 7785); (7786, 7787); (7788, 7789); (7790, 7791);
    (7792, 7793); (7794, 7795); (7796, 7797); (7798, 7799); (7800, 7801);
    (7802, 7803); (7804, 7805); (7806, 7807); (7808, 7809); (7810, 7811);
    (7812, 7813); (7814, 7815); (7816, 7817); (7818, 7819); (7820, 7821);
    (7822, 7823); (7824, 7825); (7826, 7827); (7828, 7829); (7838, 223);
    (7840, 7841); (7842, 7843); (7844, 7845); (7846, 7847); (7848, 7849);
    (7850, 7851); (7852, 7853); (7854, 7855); (7856, 7857); (7858, 7859);
    (7860, 7861); (7862, 7863); (7864, 7865); (7866, 7867); (7868, 7869);
    (7870, 7871); (7872, 7873); (7874, 7875); (7876, 7877); (7878, 7879);
    (7880, 7881); (7882, 7883); (7884, 7885); (7886, 7887); (7888, 7889);
    (7890, 7891); (7892, 7893); (7894, 7895); (7896, 7897); (7898, 7899);
    (7900, 7901); (7902, 7903); (7904, 7905); (7906, 7907); (7908, 7909);
    (7910, 7911); (7912, 7913); (7914, 7915); (7916, 7917); (7918, 7919);
    (7920, 7921); (7922, 7923); (7924, 7925); (7926, 7927); (7928, 7929);
    (7930, 7931); (7932, 7933); (7934, 7935); (7944, 7936); (7945, 7937);
    (7946, 7938); (7947, 7939); (7948, 7940); (7949, 7941); (7950, 7942);
    (7951, 7943); (7960, 7952); (7961, 7953); (7962, 7954); (7963, 7955);
    (7964, 7956); (7965, 7957); (7976, 7968); (7977, 7969); (7978, 7970);
    (7979, 7971); (7980, 7972); (7981, 7973); (7982, 7974); (7983, 7975);
    (7992, 7984); (7993, 7985); (7994, 7986); (7995, 7987); (7996, 7988);
    (7997, 7989); (7998, 7990); (7999, 7991); (8008, 8000); (8009, 8001);
    (8010, 8002); (8011, 8003); (8012, 8004); (8013, 8005); (8025, 8017);
    (8027, 8019); (8029, 8021); (8031, 8023); (8040, 8032); (8041, 8033);
    (8042, 8034); (8043, 8035); (8044, 8036); (8045, 8037); (8046, 8038);
    (8047, 8039); (8072, 8064); (8073, 8065); (8074, 8066); (8075, 8067);
    (8076, 8068); (8077, 8069); (8078, 8070); (8079, 8071); (8088, 8080);
    (8089, 8081); (8090, 8082); (8091, 8083); (8092, 8084); (8093, 8085);
    (8094, 8086); (8095, 8087); (8104, 8096); (8105, 8097); (8106, 8098);
    (8107, 8099); (8108, 8100); (8109, 8101); (8110, 8102); (8111, 8103);
    (8120, 8112); (8121, 8113); (8122, 8048); (8123, 8049); (8124, 8115);
    (8136, 8050); (8137, 8051); (8138, 8052); (8139, 8053); (8140, 8131);
    (8152, 8144); (8153, 8145); (8154, 8054); (8155, 8055); (8168, 8160);
    (8169, 8161); (8170, 8058); (8171, 8059); (8172, 8165); (8184, 8056);
    (8185, 8057); (8186, 8060); (8187, 8061); (8188, 8179); (8486, 969);
    (8490, 107); (8491, 229); (8498, 8526); (8544, 8560); (8545, 8561);
    (8546, 8562); (8547, 8563); (8548, 8564); (8549, 8565); (8550, 8566);
    (8551, 8567); (8552, 8568); (8553, 8569); (8554, 8570); (8555, 8571);
    (8556, 8572); (8557, 8573); (8558, 8574); (8559, 8575); (8579, 8580);
    (9398, 9424); (9399, 9425); (9400, 9426); (9401, 9427); (9402, 9428);
    (9403, 9429); (9404, 9430); (9405, 9431); (9406, 9432); (9407, 9433);
    (9408, 9434); (9409, 9435); (9410, 9436); (9411, 9437); (9412, 9438);
    (9413, 9439); (9414, 9440); (9415, 9441); (9416, 9442); (9417, 9443);
    (9418, 9444); (9419, 9445); (9420, 9446); (9421, 9447); (9422, 9448);
    (9423, 9449); (11264, 11312); (11265, 11313); (11266, 11314);
    (11267, 11315); (11268, 11316); (11269, 11317); (11270, 11318);
    (11271, 11319); (11272, 11320); (11273, 11321); (11274, 11322);
    (11275, 11323); (11276, 11324); (11277, 11325); (11278, 11326);
    (11279, 11327); (11280, 11328); (11281, 11329); (11282, 11330);
    (11283, 11331); (11284, 11332); (11285, 11333); (11286, 11334);
    (11287, 11335); (11288, 11336); (11289, 11337); (11290, 11338);
    (11291, 11339); (11292, 11340); (11293, 11341); (11294, 11342);
    (11295, 11343); (11296, 11344); (11297, 11345); (11298, 11346);
    (11299, 11347); (11300, 11348); (11301, 11349); (11302, 11350);
    (11303, 11351); (11304, 11352); (11305, 11353); (11306, 11354);
    (11307, 11355); (11308, 11356); (11309, 11357); (11310, 11358);
    (11311, 11359); (11360, 11361); (11362, 619); (11363, 7549);
    (11364, 637); (11367, 11368); (11369, 11370); (11371, 11372);
    (11373, 593); (11374, 625); (11375, 592); (11376, 594); (11378, 11379);
    (11381, 11382); (11390, 575); (11391, 576); (11392, 11393);
    (11394, 11395); (11396, 11397); (11398, 11399); (11400, 11401);
    (11402, 11403); (11404, 11405); (11406, 11407); (11408, 11409);
    (11410, 11411); (11412, 11413); (11414, 11415); (11416, 11417);
    (11418, 11419); (11420, 11421); (11422, 11423); (11424, 11425);
    (11426, 11427); (11428, 11429); (11430, 11431); (11432, 11433);
    (11434, 11435); (11436, 11437); (11438, 11439); (11440, 11441);
    (11442, 11443); (11444, 11445); (11446, 11447); (11448, 11449);
    (11450, 11451); (11452, 11453); (11454, 11455); (11456, 11457);
    (11458, 11459); (11460, 11461); (11462, 11463); (11464, 11465);
    (11466, 11467); (11468, 11469); (11470, 11471); (11472, 11473);
    (11474, 11475); (11476, 11477); (11478, 11479); (11480, 11481);
    (11482, 11483); (11484, 11485); (11486, 11487); (11488, 11489);
    (11490, 11491); (11499, 11500); (11501, 11502); (11506, 11507);
    (42560, 42561); (42562, 42563); (42564, 42565); (42566, 42567);
    (42568, 42569); (42570, 42571); (42572, 42573); (42574, 42575);
    (42576, 42577); (42578, 42579); (42580, 42581); (42582, 42583);
    (42584, 42585); (42586, 42587); (42588, 42589); (42590, 42591);
    (42592, 42593); (42594, 42595); (42596, 42597); (42598, 42599);
    (42600, 42601); (42602, 42603); (42604, 42605); (42624, 42625);
    (42626, 42627); (42628, 42629); (42630, 42631); (42632, 42633);
    (42634, 42635); (42636, 42637); (42638, 42639); (42640, 42641);
    (42642, 42643); (42644, 42645); (42646, 42647); (42648, 42649);
    (42650, 42651); (42786, 42787); (42788, 42789); (42790, 42791);
    (42792, 42793); (42794, 42795); (42796, 42797); (42798, 42799);
    (42802, 42803); (42804, 42805); (42806, 42807); (42808, 42809);
    (42810, 42811); (42812, 42813); (42814, 42815); (42816, 42817);
    (42818, 42819); (42820, 42821); (42822, 42823); (42824, 42825);
    (42826, 42827); (42828, 42829); (42830, 42831); (42832, 42833);
    (42834, 42835); (42836, 42837); (42838, 42839); (42840, 42841);
    (42842, 42843); (42844, 42845); (42846, 42847); (42848, 42849);
    (42850, 42851); (42852, 42853); (42854, 42855); (42856, 42857);
    (42858, 42859); (42860, 42861); (42862, 42863); (42873, 42874);
    (42875, 42876); (42877, 7545); (42878, 42879); (42880, 42881);
    (42882, 42883); (42884, 42885); (42886, 42887); (42891, 42892);
    (42893, 613); (42896, 42897); (42898, 42899); (42902, 42903);
    (42904, 42905); (42906, 42907); (42908, 42909); (42910, 42911);
    (42912, 42913); (42914, 42915); (42916, 42917); (42918, 42919);
    (42920, 42921); (42922, 614); (42923, 604); (42924, 609); (42925, 620);
    (42926, 618); (42928, 670); (42929, 647); (42930, 669); (42931, 43859);
    (42932, 42933); (42934, 42935); (42936, 42937); (42938, 42939);
    (42940, 42941); (42942, 42943); (42944, 42945); (42946, 42947);
    (42948, 42900); (42949, 642); (42950, 7566); (42951, 42952);
    (42953, 42954); (42960, 42961); (42966, 42967); (42968, 42969);
    (42997, 42998); (65313, 65345); (65314, 65346); (65315, 65347);
    (65316, 65348); (65317, 65349); (65318, 65350); (65319, 65351);
    (65320, 65352); (65321, 65353); (65322, 65354); (65323, 65355);
    (65324, 65356); (65325, 65357); (65326, 65358); (65327, 65359);
    (65328, 65360); (65329, 65361); (65330, 65362); (65331, 65363);
    (65332, 65364); (65333, 65365); (65334, 65366); (65335, 65367);
    (65336, 65368); (65337, 65369); (65338, 65370); (66560, 66600);
    (66561, 66601); (66562, 66602); (66563, 66603); (66564, 66604);
    (66565, 66605); (66566, 66606); (66567, 66607); (66568, 66608);
    (66569, 66609); (66570, 66610); (66571, 66611); (66572, 66612);
    (66573, 66613); (66574, 66614); (66575, 66615); (66576, 66616);
    (66577, 66617); (66578, 66618); (66579, 66619); (66580, 66620);
    (66581, 66621); (66582, 66622); (66583, 66623); (66584, 66624);
    (66585, 66625); (66586, 66626); (66587, 66627); (66588, 66628);
    (66589, 66629); (66590, 66630); (66591, 66631); (66592, 66632);
    (66593, 66633); (66594, 66634); (66595, 66635); (66596, 66636);
    (66597, 66637); (66598, 66638); (66599, 66639); (66736, 66776);
    (66737, 66777); (66738, 66778); (66739, 66779); (66740, 66780);
    (66741, 66781); (66742, 66782); (66743, 66783); (66744, 66784);
    (66745, 66785); (66746, 66786); (66747, 66787); (66748, 66788);
    (66749, 66789); (66750, 66790); (66751, 66791); (66752, 66792);
    (66753, 66793); (66754, 66794); (66755, 66795); (66756, 66796);
    (66757, 66797); (66758, 66798); (66759, 66799); (66760, 66800);
    (66761, 66801); (66762, 66802); (66763, 66803); (66764, 66804);
    (66765, 66805); (66766, 66806); (66767, 66807); (66768, 66808);
    (66769, 66809); (66770, 66810); (66771, 66811); (66928, 66967);
    (66929, 66968); (66930, 66969); (66931, 66970); (66932, 66971);
    (66933, 66972); (66934, 66973); (66935, 66974); (66936, 66975);
    (66937, 66976); (66938, 66977); (66940, 66979); (66941, 66980);
    (66942, 66981); (66943, 66982); (66944, 66983); (66945, 66984);
    (66946, 66985); (66947, 66986); (66948, 66987); (66949, 66988);
    (66950, 66989); (66951, 66990); (66952, 66991); (66953, 66992);
    (66954, 66993); (66956, 66995); (66957, 66996); (66958, 66997);
    (66959, 66998); (66960, 66999); (66961, 67000); (66962, 67001);
    (66964, 67003); (66965, 67004); (68736, 68800); (68737, 68801);
    (68738, 68802); (68739, 68803); (68740, 68804); (68741, 68805);
    (68742, 68806); (68743, 68807); (68744, 68808); (68745, 68809);
    (68746, 68810); (68747, 68811); (68748, 68812); (68749, 68813);
    (68750, 68814); (68751, 68815); (68752, 68816); (68753, 68817);
    (68754, 68818); (68755, 68819); (68756, 68820); (68757, 68821);
    (68758, 68822); (68759, 68823); (68760, 68824); (68761, 68825);
    (68762, 68826); (68763, 68827); (68764, 68828); (68765, 68829);
    (68766, 68830); (68767, 68831); (68768, 68832); (68769, 68833);
    (68770, 68834); (68771, 68835); (68772, 68836); (68773, 68837);
    (68774, 68838); (68775, 68839); (68776, 68840); (68777, 68841);
    (68778, 68842); (68779, 68843); (68780, 68844); (68781, 68845);
    (68782, 68846); (68783, 68847); (68784, 68848); (68785, 68849);
    (68786, 68850); (71840, 71872); (71841, 71873); (71842, 71874);
    (71843, 71875); (71844, 71876); (71845, 71877); (71846, 71878);
    (71847, 71879); (71848, 71880); (71849, 71881); (71850, 71882);
    (71851, 71883); (71852, 71884); (71853, 71885); (71854, 71886);
    (71855, 71887); (71856, 71888); (71857, 71889); (71858, 71890);
    (71859, 71891); (71860, 71892); (71861, 71893); (71862, 71894);
    (71863, 71895); (71864, 71896); (71865, 71897); (71866, 71898);
    (71867, 71899); (71868, 71900); (71869, 71901); (71870, 71902);
    (71871, 71903); (93760, 93792); (93761, 93793); (93762, 93794);
    (93763, 93795); (93764, 93796); (93765, 93797); (93766, 93798);
    (93767, 93799); (93768, 93800); (93769, 93801); (93770, 93802);
    (93771, 93803); (93772, 93804); (93773, 93805); (93774, 93806);
    (93775, 93807); (93776, 93808); (93777, 93809); (93778, 93810);
    (93779, 93811); (93780, 93812); (93781, 93813); (93782, 93814);
    (93783, 93815); (93784, 93816); (93785, 93817); (93786, 93818);
    (93787, 93819); (93788, 93820); (93789, 93821); (93790, 93822);
    (93791, 93823); (125184, 125218); (125185, 125219); (125186, 125220);
    (125187, 125221); (125188, 125222); (125189, 125223); (125190, 125224);
    (125191, 125225); (125192, 125226); (125193, 125227); (125194, 125228);
    (125195, 125229); (125196, 125230); (125197, 125231); (125198, 125232);
    (125199, 125233); (125200, 125234); (125201, 125235); (125202, 125236);
    (125203, 125237); (125204, 125238); (125205, 125239); (125206, 125240);
    (125207, 125241); (125208, 125242); (125209, 125243); (125210, 125244);
    (125211, 125245); (125212, 125246); (125213, 125247); (125214, 125248);
    (125215, 125249); (125216, 125250); (125217, 125251) ].

(** Lookup in the sorted [lower_table]; stops at the first larger key. *)
Fixpoint lower_lookup (c : N) (t : list (N * N)) : option N :=
  match t with
  | [] => None
  | (s, d) :: t' =>
      if c <? s then None else if c =? s then Some d else lower_lookup c t'
  end.

Definition py_lower_char (c : N) : pystr :=
  if c =? 304 then [105; 775]
  else match lower_lookup c lower_table with
       | Some d => [d]
       | None => [c]
       end.

Definition py_lower (s : pystr) : pystr := flat_map py_lower_char s.

(** [str.strip()]: drop leading and trailing whitespace. *)
Fixpoint py_lstrip (s : pystr) : pystr :=
  match s with
  | [] => []
  | c :: t => if py_isspace_char c then py_lstrip t else s
  end.

Definition py_strip (s : pystr) : pystr := rev (py_lstrip (rev (py_lstrip s))).

(** [str.split()] without arguments: maximal runs of non-whitespace, in
    order; [cur] is the word read so far. *)
Fixpoint split_aux (cur : pystr) (s : pystr) : list pystr :=
  match s with
  | [] => match cur with [] => [] | _ => [cur] end
  | c :: t =>
      if py_isspace_char c then
        match cur with
        | [] => split_aux [] t
        | _ => cur :: split_aux [] t
        end
      else split_aux (cur ++ [c]) t
  end.

Definition py_split (s : pystr) : list pystr := split_aux [] s.

(** [sep.join(l)]. *)
Definition py_join (sep : pystr) (l : list pystr) : pystr :=
  match l with
  | [] => []
  | x :: xs => x ++ concat (map (fun y => sep ++ y) xs)
  end.

(* ------------------------------------------------------------------ *)
(** ** Exceptions and the state-and-exception monad *)

Inductive exn : Type :=
| KeyError (msg : pystr)
| ValueError (msg : pystr)
| IndexError (msg : pystr).

Inductive result (A : Type) : Type :=
| Ok (a : A)
| Raise (e : exn).
Arguments Ok {A} a.
Arguments Raise {A} e.

(** A computation over a mutable object of type [S]: the final state is
    returned also when an exception is raised. *)
Definition M (S A : Type) : Type := S -> result A * S.

Definition ret {S A} (a : A) : M S A := fun s => (Ok a, s).
Definition raise {S A} (e : exn) : M S A := fun s => (Raise e, s).
Definition bind {S A B} (m : M S A) (k : A -> M S B) : M S B :=
  fun s => match m s with
           | (Ok a, s') => k a s'
           | (Raise e, s') => (Raise e, s')
           end.

Notation "x <- m ;; k" := (bind m (fun x => k))
  (at level 61, m at next level, right associativity).
Notation "m ;;; k" := (bind m (fun _ => k))
  (at level 61, right associativity).

(* ------------------------------------------------------------------ *)
(** ** Field, Name, Phone *)

(** Python objects are identified by their identity; a [Phone] carries the
    identity of the object together with its [value]. *)
Record Phone := mkPhone { phone_id : nat; phone_value : pystr }.

Record Name := mkName { name_value : pystr }.

Definition msg_empty_name := lit "Name cannot be empty".
Definition msg_invalid_phone := lit "Phone number must be 10 digits".

(** [Name.__init__]: [if not value: raise ValueError(...)]. *)
Definition Name_new (value : pystr) : result Name :=
  match value with
  | [] => Raise (ValueError msg_empty_name)
  | _ => Ok (mkName value)
  end.

(** [Phone.validate_phone]: [phone.isdigit() and len(phone) == 10]. *)
Definition validate_phone (phone : pystr) : bool :=
  py_isdigit phone && Nat.eqb (length phone) 10.

(** [Phone.__init__], allocating a new object with identity [oid]. *)
Definition Phone_new (oid : nat) (value : pystr) : result Phone :=
  if negb (validate_phone value) then Raise (ValueError msg_invalid_phone)
  else Ok (mkPhone oid value).

(* ------------------------------------------------------------------ *)
(** ** Record *)

Record Record_ := mkRecord { rec_name : Name; phones : list Phone }.

Definition set_phones (self : Record_) (l : list Phone) : Record_ :=
  mkRecord (rec_name self) l.

Definition msg_phone_not_found := lit "Phone number not found".
Definition msg_old_not_found := lit "Old phone number not found".
Definition msg_not_in_list := lit "list.remove(x): x not in list".

(** [Record.__init__]: [self.name = Name(name); self.phones = []]. *)
Definition Record_new (name : pystr) : result Record_ :=
  match Name_new name with
  | Ok n => Ok (mkRecord n [])
  | Raise e => Raise e
  end.

(** Identity of a newly allocated object: distinct from every object of
    the list it is appended to. *)
Definition fresh_id (l : list Phone) : nat := S (list_max (map phone_id l)).

(** [list.remove(x)]: removes the first item that [is] (or [==]) [x];
    [Phone] defines no [__eq__], so [==] is identity. *)
Fixpoint list_remove (x : Phone) (l : list Phone) : result (list Phone) :=
  match l with
  | [] => Raise (ValueError msg_not_in_list)
  | y :: t =>
      if Nat.eqb (phone_id y) (phone_id x) then Ok t
      else match list_remove x t with
           | Ok t' => Ok (y :: t')
           | Raise e => Raise e
           end
  end.

(** [Record.add_phone]: [self.phones.append(Phone(phone))]. *)
Definition add_phone (phone : pystr) : M Record_ unit := fun self =>
  match Phone_new (fresh_id (phones self)) phone with
  | Ok p => (Ok tt, set_phones self (phones self ++ [p]))
  | Raise e => (Raise e, self)
  end.

(** [Record.find_phone]: the first phone whose [value] equals [phone]. *)
Definition find_phone (phone : pystr) (self : Record_) : option Phone :=
  List.find (fun p => str_eqb (phone_value p) phone) (phones self).

(** [Record.remove_phone]. *)
Definition remove_phone (phone : pystr) : M Record_ unit := fun self =>
  match find_phone phone self with
  | Some phone_obj =>
      match list_remove phone_obj (phones self) with
      | Ok l => (Ok tt, set_phones self l)
      | Raise e => (Raise e, self)
      end
  | None => (Raise (ValueError msg_phone_not_found), self)
  end.

(** [Record.edit_phone]: [remove_phone(old)] then [add_phone(new)]. *)
Definition edit_phone (old_phone new_phone : pystr) : M Record_ unit :=
  fun self =>
  match find_phone old_phone self with
  | Some _ => (remove_phone old_phone ;;; add_phone new_phone) self
  | None => (Raise (ValueError msg_old_not_found), self)
  end.

(** [Record.__str__]. *)
Definition Record_str (self : Record_) : pystr :=
  lit "Contact name: " ++ name_value (rec_name self) ++ lit ", phones: "
  ++ py_join (lit "; ") (map phone_value (phones self)).

(* ------------------------------------------------------------------ *)
(** ** AddressBook *)

Module AddressBook.

(** The underlying [dict] of the [UserDict], in insertion order. *)
Definition t := list (pystr * Record_).

(** [d[k] = v]: an existing key keeps its position, a new one is
    appended. *)
Fixpoint dict_set (k : pystr) (v : Record_) (d : t) : t :=
  match d with
  | [] => [(k, v)]
  | (k', v') :: d' =>
      if str_eqb k' k then (k', v) :: d' else (k', v') :: dict_set k v d'
  end.

Fixpoint dict_get (k : pystr) (d : t) : option Record_ :=
  match d with
  | [] => None
  | (k', v') :: d' => if str_eqb k' k then Some v' else dict_get k d'
  end.

Definition dict_mem (k : pystr) (d : t) : bool :=
  existsb (fun kv => str_eqb (fst kv) k) d.

(** [del d[k]]. *)
Definition dict_del (k : pystr) (d : t) : t :=
  filter (fun kv => negb (str_eqb (fst kv) k)) d.

Definition msg_record_not_found := lit "Record not found".

(** [AddressBook.add_record]: [self.data[record.name.value] = record]. *)
Definition add_record (record : Record_) (self : t) : t :=
  dict_set (name_value (rec_name record)) record self.

(** [AddressBook.find]: [self.data.get(name, None)]. *)
Definition find (name : pystr) (self : t) : option Record_ :=
  dict_get name self.

(** [AddressBook.delete]. *)
Definition delete (name : pystr) : M t unit := fun self =>
  if dict_mem name self then (Ok tt, dict_del name self)
  else (Raise (ValueError msg_record_not_found), self).

Definition newline : pystr := [10].

(** [AddressBook.__str__]: ['\n'.join(str(r) for r in self.data.values())]. *)
Definition str (self : t) : pystr :=
  py_join newline (map (fun kv => Record_str (snd kv)) self).

End AddressBook.

(* ------------------------------------------------------------------ *)
(** ** Command handlers *)

Definition msg_contact_not_found := lit "Error: Contact not found.".
Definition msg_invalid_format := lit "Error: Invalid command format.".
Definition msg_add_args :=
  lit "Command requires exactly 2 arguments (name and phone).".
Definition msg_change_args :=
  lit "Command requires exactly 2 arguments (name and new phone).".
Definition msg_phone_args := lit "Command requires exactly 1 argument (name).".
Definition msg_already_exists := lit "Contact already exists.".
Definition msg_key_not_found := lit "Contact not found.".
Definition msg_index_range := lit "list index out of range".
Definition msg_unpack :=
  lit "not enough values to unpack (expected at least 1, got 0)".

(** The decorator [input_error]: [KeyError], [ValueError] and [IndexError]
    become messages; the state changes made before the exception stay. *)
Definition input_error {S} (func : M S pystr) : M S pystr := fun s =>
  match func s with
  | (Ok v, s') => (Ok v, s')
  | (Raise (KeyError _), s') => (Ok msg_contact_not_found, s')
  | (Raise (ValueError e), s') => (Ok (lit "Error: " ++ e), s')
  | (Raise (IndexError _), s') => (Ok msg_invalid_format, s')
  end.

(** [parse_input]: [cmd, *args = user_input.strip().lower().split()]; the
    starred assignment raises [ValueError] when there is no word. *)
Definition parse_input (user_input : pystr) : result (pystr * list pystr) :=
  match py_split (py_lower (py_strip user_input)) with
  | [] => Raise (ValueError msg_unpack)
  | cmd :: args => Ok (cmd, args)
  end.

(** [add_contact] before decoration. *)
Definition add_contact_body (args : list pystr) : M AddressBook.t pystr :=
  fun contacts =>
  match args with
  | [name; phone] =>
      match AddressBook.find name contacts with
      | Some _ => (Raise (ValueError msg_already_exists), contacts)
      | None =>
          match Record_new name with
          | Raise e => (Raise e, contacts)
          | Ok record =>
              match add_phone phone record with
              | (Raise e, _) => (Raise e, contacts)
              | (Ok _, record') =>
                  (Ok (lit "Contact added."),
                   AddressBook.add_record record' contacts)
              end
          end
      end
  | _ => (Raise (ValueError msg_add_args), contacts)
  end.

Definition add_contact (args : list pystr) : M AddressBook.t pystr :=
  input_error (add_contact_body args).

(** [change_contact] before decoration.  [record] is the object stored in
    the dict under [name]: [edit_phone] mutates it there, which is written
    back under the same key, also when [edit_phone] raises. *)
Definition change_contact_body (args : list pystr) : M AddressBook.t pystr :=
  fun contacts =>
  match args with
  | [name; new_phone] =>
      match AddressBook.find name contacts with
      | Some record =>
          match phones record with
          | [] => (Raise (IndexError msg_index_range), contacts)
          | first :: _ =>
              let (r, record') := edit_phone (phone_value first) new_phone record in
              let contacts' := AddressBook.dict_set name record' contacts in
              match r with
              | Ok _ => (Ok (lit "Contact updated."), contacts')
              | Raise e => (Raise e, contacts')
              end
          end
      | None => (Raise (KeyError msg_key_not_found), contacts)
      end
  | _ => (Raise (ValueError msg_change_args), contacts)
  end.

Definition change_contact (args : list pystr) : M AddressBook.t pystr :=
  input_error (change_contact_body args).

(** [show_phone] before decoration. *)
Definition show_phone_body (args : list pystr) : M AddressBook.t pystr :=
  fun contacts =>
  match args with
  | [name] =>
      match AddressBook.find name contacts with
      | Some record =>
          (Ok (name ++ lit ": "
               ++ py_join (lit ", ") (map phone_value (phones record))),
           contacts)
      | None => (Raise (KeyError msg_key_not_found), contacts)
      end
  | _ => (Raise (IndexError msg_phone_args), contacts)
  end.

Definition show_phone (args : list pystr) : M AddressBook.t pystr :=
  input_error (show_phone_body args).

(** [show_all] before decoration: [if contacts] tests the length. *)
Definition show_all_body : M AddressBook.t pystr := fun contacts =>
  match contacts with
  | [] => (Ok (lit "No contacts found."), contacts)
  | _ => (Ok (AddressBook.str contacts), contacts)
  end.

Definition show_all : M AddressBook.t pystr := input_error show_all_body.

(* ------------------------------------------------------------------ *)
(** ** The command loop *)

(** One iteration of [main]'s loop: the line is printed something and the
    loop goes on, or it ends with [break], or an exception escapes [main]. *)
Inductive outcome : Type :=
| Continue (printed : pystr) (contacts : AddressBook.t)
| Exit (printed : pystr)
| Crash (e : exn).

Definition is_cmd (command : pystr) (s : string) : bool := str_eqb command (lit s).

(** [print(handler(...))]. *)
Definition print_result (h : M AddressBook.t pystr) (contacts : AddressBook.t)
  : outcome :=
  match h contacts with
  | (Ok s, contacts') => Continue s contacts'
  | (Raise e, _) => Crash e
  end.

Definition main_step (contacts : AddressBook.t) (user_input : pystr) : outcome :=
  match parse_input user_input with
  | Raise e => Crash e
  | Ok (command, args) =>
      if is_cmd command "close" || is_cmd command "exit" then Exit (lit "Good bye!")
      else if is_cmd command "hello" then Continue (lit "How can I help you?") contacts
      else if is_cmd command "add" then print_result (add_contact args) contacts
      else if is_cmd command "change" then print_result (change_contact args) contacts
      else if is_cmd command "phone" then print_result (show_phone args) contacts
      else if is_cmd command "all" then print_result show_all contacts
      else if is_cmd command "help" then
        Continue (lit "Available commands: hello, add, change, phone, all, close, exit")
                 contacts
      else Continue (lit "Invalid command. Type 'help' to see the list of available commands.")
                    contacts
  end.

(** State of a session after a sequence of input lines. *)
Inductive session : Type :=
| Waiting (contacts : AddressBook.t)
| Exited
| Crashed (e : exn).

(** [main] on a sequence of input lines, from a given [AddressBook]: the
    printed lines and the session state. *)
Fixpoint run (contacts : AddressBook.t) (lines : list pystr)
  : list pystr * session :=
  match lines with
  | [] => ([], Waiting contacts)
  | l :: ls =>
      match main_step contacts l with
      | Continue o contacts' => let (os, s) := run contacts' ls in (o :: os, s)
      | Exit o => ([o], Exited)
      | Crash e => ([], Crashed e)
      end
  end.

Example run_scenario_1 :
  run [] [lit "add john 1234567890"; lit "phone john"]
  = ([lit "Contact added."; lit "john: 1234567890"],
     Waiting [(lit "john", mkRecord (mkName (lit "john"))
                             [mkPhone 1 (lit "1234567890")])]).
Proof. reflexivity. Qed.

Example run_scenario_3 :
  fst (run [] [lit "add john 1234567890"; lit "change john 1112223333";
               lit "phone john"; lit "all"])
  = [lit "Contact added."; lit "Contact updated."; lit "john: 1112223333";
     lit "Contact name: john, phones: 1112223333"].
Proof. reflexivity. Qed.

(* ================================================================== *)
(** * Properties *)

(* ------------------------------------------------------------------ *)
(** ** Phone validation *)

Definition ascii_digit (c : N) : Prop := 48 <= c <= 57.

Definition john : pystr := lit "john".

(** Ten ARABIC-INDIC DIGIT code points: "١٢٣٤٥٦٧٨٩٠". *)
Definition arabic_indic_phone : pystr :=
  [1633; 1634; 1635; 1636; 1637; 1638; 1639; 1640; 1641; 1632].

(** Ten THAI DIGIT code points. *)
Definition thai_phone : pystr :=
  [3665; 3666; 3667; 3668; 3669; 3670; 3671; 3672; 3673; 3664].

Lemma validate_phone_iff s :
  validate_phone s = true
  <-> length s = 10%nat /\ Forall (fun c => py_isdigit_char c = true) s.
Proof.
  unfold validate_phone, py_isdigit.
  rewrite Forall_forall, andb_true_iff, Nat.eqb_eq.
  destruct s as [|c s].
  - simpl; split; [intros [H _]; discriminate | intros [H _]; discriminate].
  - rewrite forallb_forall; tauto.
Qed.

Lemma Phone_new_cases oid s :
  (validate_phone s = true /\ Phone_new oid s = Ok (mkPhone oid s))
  \/ (validate_phone s = false
      /\ Phone_new oid s = Raise (ValueError msg_invalid_phone)).
Proof.
  unfold Phone_new; destruct (validate_phone s); simpl; auto.
Qed.

(** C1 (code bug): [validate_phone] is meant to accept ten decimal digits
    ("Phone number must be 10 digits"), but [str.isdigit] accepts every
    Unicode digit: a phone made of ten ARABIC-INDIC digits, or of ten THAI
    digits, is accepted, by [Phone] and through the [add] command. *)
Theorem C1_Phone_accepts_non_ascii_digits :
  Phone_new 0 arabic_indic_phone = Ok (mkPhone 0 arabic_indic_phone)
  /\ ~ Forall ascii_digit arabic_indic_phone
  /\ Phone_new 0 thai_phone = Ok (mkPhone 0 thai_phone)
  /\ ~ Forall ascii_digit thai_phone
  /\ run [] [lit "add john " ++ arabic_indic_phone]
     = ([lit "Contact added."],
        Waiting [(john, mkRecord (mkName john) [mkPhone 1 arabic_indic_phone])]).
Proof.
  split; [reflexivity|]; split.
  - intros H; inversion H as [|c l Hc _]; unfold ascii_digit in Hc; lia.
  - split; [reflexivity|]; split; [|reflexivity].
    intros H; inversion H as [|c l Hc _]; unfold ascii_digit in Hc; lia.
Qed.

(* ------------------------------------------------------------------ *)
(** ** Record: find, remove, edit *)

(** Object identity determines the object: two phones of the list with the
    same identity are the same object. *)
Definition wf_phones (l : list Phone) : Prop :=
  forall p q, In p l -> In q l -> phone_id p = phone_id q -> p = q.

Lemma fresh_id_notin l p : In p l -> (phone_id p < fresh_id l)%nat.
Proof.
  intros Hin; unfold fresh_id.
  assert (H : (phone_id p <= list_max (map phone_id l))%nat).
  { pose proof (proj1 (list_max_le (map phone_id l) _) (le_n _)) as Hall.
    rewrite Forall_forall in Hall; apply Hall, in_map, Hin. }
  lia.
Qed.

Lemma add_phone_wf r s :
  wf_phones (phones r) -> wf_phones (phones (snd (add_phone s r))).
Proof.
  unfold add_phone; intros Hwf.
  destruct (Phone_new_cases (fresh_id (phones r)) s) as [[_ Hp]|[_ Hp]];
    rewrite Hp; simpl; [|exact Hwf].
  intros p q Hp' Hq' Hid; apply in_app_or in Hp', Hq'.
  destruct Hp' as [Hp'|[<-|[]]], Hq' as [Hq'|[<-|[]]]; auto;
    [apply fresh_id_notin in Hp'| apply fresh_id_notin in Hq']; simpl in *; lia.
Qed.

Lemma find_split {A} (f : A -> bool) l p :
  List.find f l = Some p ->
  exists l1 l2, l = l1 ++ p :: l2 /\ Forall (fun q => f q = false) l1
                /\ f p = true.
Proof.
  induction l as [|a l IH]; simpl; [discriminate|].
  destruct (f a) eqn:Ha.
  - intros [= <-]; exists [], l; auto.
  - intros H; destruct (IH H) as (l1 & l2 & -> & Hl1 & Hp).
    exists (a :: l1), l2; auto.
Qed.

Lemma list_remove_app l1 p l2 :
  Forall (fun q => phone_id q <> phone_id p) l1 ->
  list_remove p (l1 ++ p :: l2) = Ok (l1 ++ l2).
Proof.
  induction 1 as [|q l1 Hq _ IH]; simpl.
  - rewrite Nat.eqb_refl; reflexivity.
  - apply Nat.eqb_neq in Hq; rewrite Hq, IH; reflexivity.
Qed.

Lemma find_phone_none s r :
  find_phone s r = None <-> forall p, In p (phones r) -> phone_value p <> s.
Proof.
  unfold find_phone; split.
  - intros H p Hin Heq.
    apply (find_none _ _ H) in Hin; subst; rewrite str_eqb_refl in Hin; discriminate.
  - intros H; destruct (List.find _ _) as [p|] eqn:Hf; [|reflexivity].
    apply find_some in Hf as [Hin Hv]; apply str_eqb_eq in Hv.
    exfalso; exact (H p Hin Hv).
Qed.

(** [remove_phone s] on a record whose first phone with value [s] is [p]
    removes that object from the list. *)
Lemma remove_phone_first s r p :
  wf_phones (phones r) -> find_phone s r = Some p ->
  exists l1 l2,
    phones r = l1 ++ p :: l2
    /\ Forall (fun q => phone_value q <> s) l1 /\ phone_value p = s
    /\ remove_phone s r = (Ok tt, set_phones r (l1 ++ l2)).
Proof.
  intros Hwf Hf.
  destruct (find_split _ _ _ Hf) as (l1 & l2 & Hl & Hl1 & Hp).
  apply str_eqb_eq in Hp.
  assert (Hne : Forall (fun q => phone_value q <> s) l1).
  { eapply Forall_impl; [|exact Hl1]; intros q Hq Heq.
    rewrite <- str_eqb_eq, Hq in Heq; discriminate. }
  exists l1, l2; split; [exact Hl|]; split; [exact Hne|]; split; [exact Hp|].
  unfold remove_phone; rewrite Hf, Hl, list_remove_app; [reflexivity|].
  rewrite Forall_forall in Hne |- *; intros q Hq Hid.
  assert (q = p) as ->.
  { apply Hwf; [rewrite Hl; apply in_or_app; auto
              | rewrite Hl; apply in_or_app; simpl; auto | exact Hid]. }
  exact (Hne p Hq Hp).
Qed.

Lemma NoDup_wf_phones l : NoDup (map phone_id l) -> wf_phones l.
Proof.
  induction l as [|a l IH]; simpl; intros Hnd p q Hp Hq Hid; [contradiction|].
  inversion Hnd as [|x y Hnotin Hnd']; subst.
  destruct Hp as [<-|Hp], Hq as [<-|Hq]; auto.
  - exfalso; apply Hnotin; rewrite Hid; apply in_map, Hq.
  - exfalso; apply Hnotin; rewrite <- Hid; apply in_map, Hp.
  - exact (IH Hnd' p q Hp Hq Hid).
Qed.

Definition num1 : pystr := lit "1234567890".

Definition ann_record : Record_ :=
  mkRecord (mkName (lit "ann")) [mkPhone 1 (lit "0000000000")].
Definition bad_num : pystr := lit "123".

(** [Record("john")] with [add_phone] applied to each of the values, in
    order (the values below are valid phones). *)
Definition record_with (values : list pystr) : Record_ :=
  fold_left (fun r v => snd (add_phone v r)) values (mkRecord (mkName john) []).

(** C2 (counterexample): with the same number added twice, an edit whose new
    number is invalid raises InvalidPhone but the record still contains
    the old number (only its first occurrence was removed). *)
Lemma C2_counterexample :
  ~ (forall r old new_phone,
        find_phone old r <> None -> validate_phone new_phone = false ->
        fst (edit_phone old new_phone r) = Raise (ValueError msg_invalid_phone)
        /\ find_phone old (snd (edit_phone old new_phone r)) = None).
Proof.
  intros H.
  destruct (H (record_with [num1; num1]) num1 bad_num) as [_ Hgone];
    [discriminate | reflexivity |].
  vm_compute in Hgone; discriminate.
Qed.

(** C2 (amended): for a record [r] whose first phone with value [old] is
    [p], and an invalid [new_phone], [edit_phone old new_phone] raises
    InvalidPhone and leaves [r] with [p] removed and nothing added: the
    removal is not undone.  When [old] occurs in [r] only once, [r] no
    longer contains [old] afterwards. *)
Theorem C2_edit_phone_not_atomic r old new_phone p :
  wf_phones (phones r) -> find_phone old r = Some p ->
  validate_phone new_phone = false ->
  exists l1 l2,
    phones r = l1 ++ p :: l2 /\ phone_value p = old
    /\ Forall (fun q => phone_value q <> old) l1
    /\ edit_phone old new_phone r
       = (Raise (ValueError msg_invalid_phone), set_phones r (l1 ++ l2))
    /\ ((forall q, In q (l1 ++ l2) -> phone_value q <> old) ->
        find_phone old (set_phones r (l1 ++ l2)) = None).
Proof.
  intros Hwf Hf Hv.
  destruct (remove_phone_first old r p Hwf Hf) as (l1 & l2 & Hl & Hl1 & Hp & Hrem).
  exists l1, l2; split; [exact Hl|]; split; [exact Hp|]; split; [exact Hl1|].
  split.
  - unfold edit_phone; rewrite Hf; unfold bind; rewrite Hrem.
    unfold add_phone, Phone_new; rewrite Hv; reflexivity.
  - intros Hnone; apply find_phone_none; exact Hnone.
Qed.

Lemma C2_edit_phone_not_atomic_witness :
  exists l1 l2,
    phones (record_with [num1]) = l1 ++ mkPhone 1 num1 :: l2
    /\ phone_value (mkPhone 1 num1) = num1
    /\ Forall (fun q => phone_value q <> num1) l1
    /\ edit_phone num1 bad_num (record_with [num1])
       = (Raise (ValueError msg_invalid_phone),
          set_phones (record_with [num1]) (l1 ++ l2))
    /\ ((forall q, In q (l1 ++ l2) -> phone_value q <> num1) ->
        find_phone num1 (set_phones (record_with [num1]) (l1 ++ l2)) = None).
Proof.
  apply C2_edit_phone_not_atomic.
  - apply NoDup_wf_phones; simpl; repeat constructor; simpl; tauto.
  - reflexivity.
  - reflexivity.
Defined.

(** C7: [remove_phone s] raises PhoneNotFound and leaves the record as it is
    when no phone has value [s]; otherwise it removes exactly the first
    phone, in list order, whose value is [s]. *)
Theorem C7_remove_phone_spec r s :
  wf_phones (phones r) ->
  ((forall p, In p (phones r) -> phone_value p <> s) ->
   remove_phone s r = (Raise (ValueError msg_phone_not_found), r))
  /\ ((exists p, In p (phones r) /\ phone_value p = s) ->
      exists l1 p l2,
        phones r = l1 ++ p :: l2 /\ phone_value p = s
        /\ Forall (fun q => phone_value q <> s) l1
        /\ remove_phone s r = (Ok tt, set_phones r (l1 ++ l2))).
Proof.
  intros Hwf; split.
  - intros Hnone; apply find_phone_none in Hnone.
    unfold remove_phone; rewrite Hnone; reflexivity.
  - intros [p0 [Hin Hv]].
    destruct (find_phone s r) as [p|] eqn:Hf.
    + destruct (remove_phone_first s r p Hwf Hf) as (l1 & l2 & Hl & Hl1 & Hp & Hrem).
      exists l1, p, l2; auto.
    + exfalso; exact (proj1 (find_phone_none s r) Hf p0 Hin Hv).
Qed.

Lemma C7_remove_phone_spec_witness :
  wf_phones (phones (record_with [num1; lit "0000000000"; num1]))
  /\ ((forall p, In p (phones (record_with [num1; lit "0000000000"; num1])) ->
                 phone_value p <> num1) ->
      remove_phone num1 (record_with [num1; lit "0000000000"; num1])
      = (Raise (ValueError msg_phone_not_found),
         record_with [num1; lit "0000000000"; num1]))
  /\ ((exists p, In p (phones (record_with [num1; lit "0000000000"; num1]))
                 /\ phone_value p = num1) ->
      exists l1 p l2,
        phones (record_with [num1; lit "0000000000"; num1]) = l1 ++ p :: l2
        /\ phone_value p = num1
        /\ Forall (fun q => phone_value q <> num1) l1
        /\ remove_phone num1 (record_with [num1; lit "0000000000"; num1])
           = (Ok tt, set_phones (record_with [num1; lit "0000000000"; num1])
                                (l1 ++ l2))).
Proof.
  assert (Hwf : wf_phones (phones (record_with [num1; lit "0000000000"; num1]))).
  { apply NoDup_wf_phones; simpl; repeat constructor; simpl; intuition discriminate. }
  split; [exact Hwf|].
  apply C7_remove_phone_spec; exact Hwf.
Defined.

(* ------------------------------------------------------------------ *)
(** ** AddressBook *)

Section Dict.
Import AddressBook.

Lemma dict_get_set k v d k' :
  dict_get k' (dict_set k v d)
  = if str_eqb k' k then Some v else dict_get k' d.
Proof.
  induction d as [|[k0 v0] d IH]; simpl.
  - destruct (str_eqb k k') eqn:E1, (str_eqb k' k) eqn:E2; auto;
      apply str_eqb_eq in E1 || apply str_eqb_eq in E2; subst;
      rewrite str_eqb_refl in *; discriminate.
  - destruct (str_eqb k0 k) eqn:E0; simpl.
    + apply str_eqb_eq in E0; subst k0.
      destruct (str_eqb k k') eqn:E1, (str_eqb k' k) eqn:E2; auto;
        apply str_eqb_eq in E1 || apply str_eqb_eq in E2; subst;
        rewrite str_eqb_refl in *; discriminate.
    + destruct (str_eqb k0 k') eqn:E1; [|exact IH].
      apply str_eqb_eq in E1; subst k0.
      rewrite E0; reflexivity.
Qed.

Lemma dict_set_keys k v d :
  map fst (dict_set k v d)
  = if dict_mem k d then map fst d else map fst d ++ [k].
Proof.
  unfold dict_mem; induction d as [|[k0 v0] d IH]; simpl; [reflexivity|].
  destruct (str_eqb k0 k); simpl; [reflexivity|].
  rewrite IH; destruct (existsb _ d); reflexivity.
Qed.

Lemma dict_mem_In k d : dict_mem k d = true <-> In k (map fst d).
Proof.
  unfold dict_mem; rewrite existsb_exists, in_map_iff; split.
  - intros [[k0 v0] [Hin Hk]]; apply str_eqb_eq in Hk; simpl in Hk; subst.
    exists (k, v0); auto.
  - intros [[k0 v0] [Hk Hin]]; simpl in Hk; subst.
    exists (k, v0); split; [exact Hin | apply str_eqb_refl].
Qed.

Lemma filter_keep_all k (l : t) :
  ~ In k (map fst l) -> filter (fun kv => negb (str_eqb (fst kv) k)) l = l.
Proof.
  induction l as [|[k0 v0] l IH]; simpl; intros Hnot; [reflexivity|].
  destruct (str_eqb k0 k) eqn:E.
  - apply str_eqb_eq in E; subst; exfalso; auto.
  - simpl; rewrite IH; auto.
Qed.

End Dict.

(** The AddressBook invariant: every record is stored under its own name. *)
Definition keyed_by_name (d : AddressBook.t) : Prop :=
  Forall (fun kv => fst kv = name_value (rec_name (snd kv))) d.

(** AddressBooks built from the empty one by [add_record], [find] and
    [delete] ([find] leaves the book as it is). *)
Inductive reachable : AddressBook.t -> Prop :=
| reach_empty : reachable []
| reach_add r d : reachable d -> reachable (AddressBook.add_record r d)
| reach_find name d : reachable d -> reachable (snd (AddressBook.find name d, d))
| reach_delete name d : reachable d -> reachable (snd (AddressBook.delete name d)).

Lemma dict_set_keyed r d :
  keyed_by_name d ->
  keyed_by_name (AddressBook.dict_set (name_value (rec_name r)) r d).
Proof.
  unfold keyed_by_name; induction 1 as [|[k0 v0] d H0 Hd IH]; simpl.
  - repeat constructor.
  - destruct (str_eqb k0 (name_value (rec_name r))) eqn:E.
    + apply str_eqb_eq in E; constructor; auto.
    + constructor; auto.
Qed.

Lemma delete_keyed name d :
  keyed_by_name d -> keyed_by_name (snd (AddressBook.delete name d)).
Proof.
  unfold AddressBook.delete; destruct (AddressBook.dict_mem name d); simpl;
    [|auto].
  unfold keyed_by_name; intros H; apply Forall_forall; intros kv Hin.
  apply filter_In in Hin as [Hin _].
  rewrite Forall_forall in H; apply H, Hin.
Qed.

Lemma find_keyed name d r :
  keyed_by_name d -> AddressBook.find name d = Some r ->
  name_value (rec_name r) = name.
Proof.
  unfold AddressBook.find; induction 1 as [|[k0 v0] d H0 Hd IH]; simpl;
    [discriminate|].
  destruct (str_eqb k0 name) eqn:E; [|exact IH].
  intros [= <-]; apply str_eqb_eq in E; simpl in H0; congruence.
Qed.

Definition msg_error_exists : pystr := lit "Error: " ++ msg_already_exists.

(** C3: [add_record r] is a total function of the book (no exception):
    for every book it stores [r] under [r.name.value], replacing what was
    there (in place) or appending a new entry, and leaves every other key
    alone; the [add] command, for a name already present, returns
    "Error: Contact already exists." (which contains "already exists") and
    leaves the book unchanged. *)
Theorem C3_add_record_vs_add_command :
  (forall r d k,
      AddressBook.find k (AddressBook.add_record r d)
      = if str_eqb k (name_value (rec_name r)) then Some r
        else AddressBook.find k d)
  /\ (forall r d,
        map fst (AddressBook.add_record r d)
        = if AddressBook.dict_mem (name_value (rec_name r)) d then map fst d
          else map fst d ++ [name_value (rec_name r)])
  /\ (forall d name phone r,
        AddressBook.find name d = Some r ->
        add_contact [name; phone] d = (Ok msg_error_exists, d))
  /\ (exists pre post, msg_error_exists = pre ++ lit "already exists" ++ post)
  /\ run [] [lit "add john 1234567890"; lit "add john 0000000000"]
     = ([lit "Contact added."; msg_error_exists],
        Waiting (AddressBook.add_record (record_with [num1]) [])).
Proof.
  split; [|split; [|split; [|split]]].
  - intros r d k; unfold AddressBook.find, AddressBook.add_record.
    apply dict_get_set.
  - intros r d; unfold AddressBook.add_record; apply dict_set_keys.
  - intros d name phone r Hfind.
    unfold add_contact, input_error, add_contact_body; rewrite Hfind; reflexivity.
  - exists (lit "Error: Contact "), (lit "."); reflexivity.
  - reflexivity.
Qed.

(** C6: [delete name] on a name that is not a key raises RecordNotFound and
    leaves the book (and its size) unchanged; on a key it removes exactly
    the entry of that key. *)
Theorem C6_delete_spec d name :
  NoDup (map fst d) ->
  (~ In name (map fst d) ->
   AddressBook.delete name d
   = (Raise (ValueError AddressBook.msg_record_not_found), d)
   /\ length (snd (AddressBook.delete name d)) = length d)
  /\ (In name (map fst d) ->
      exists l1 v l2,
        d = l1 ++ (name, v) :: l2
        /\ AddressBook.delete name d = (Ok tt, l1 ++ l2)).
Proof.
  intros Hnd; split.
  - intros Hnot.
    assert (Hm : AddressBook.dict_mem name d = false).
    { apply not_true_iff_false; rewrite dict_mem_In; exact Hnot. }
    unfold AddressBook.delete; rewrite Hm; split; reflexivity.
  - intros Hin.
    assert (Hm : AddressBook.dict_mem name d = true) by (apply dict_mem_In, Hin).
    apply in_map_iff in Hin as [[k v] [Hk Hkv]]; simpl in Hk; subst k.
    apply in_split in Hkv as (l1 & l2 & ->).
    exists l1, v, l2; split; [reflexivity|].
    rewrite map_app in Hnd; simpl in Hnd.
    apply NoDup_remove_2 in Hnd; rewrite in_app_iff in Hnd.
    unfold AddressBook.delete, AddressBook.dict_del; rewrite Hm, filter_app.
    simpl; rewrite str_eqb_refl; simpl.
    rewrite !filter_keep_all; auto.
Qed.

Lemma C6_delete_spec_witness :
  NoDup (map fst (AddressBook.add_record (record_with [num1]) []))
  /\ (~ In (lit "ann") (map fst (AddressBook.add_record (record_with [num1]) [])) ->
      AddressBook.delete (lit "ann") (AddressBook.add_record (record_with [num1]) [])
      = (Raise (ValueError AddressBook.msg_record_not_found),
         AddressBook.add_record (record_with [num1]) [])
      /\ length (snd (AddressBook.delete (lit "ann")
                        (AddressBook.add_record (record_with [num1]) [])))
         = length (AddressBook.add_record (record_with [num1]) []))
  /\ (In (lit "ann") (map fst (AddressBook.add_record (record_with [num1]) [])) ->
      exists l1 v l2,
        AddressBook.add_record (record_with [num1]) [] = l1 ++ (lit "ann", v) :: l2
        /\ AddressBook.delete (lit "ann") (AddressBook.add_record (record_with [num1]) [])
           = (Ok tt, l1 ++ l2)).
Proof.
  assert (Hnd : NoDup (map fst (AddressBook.add_record (record_with [num1]) [])))
    by (simpl; repeat constructor; simpl; tauto).
  split; [exact Hnd|].
  apply C6_delete_spec; exact Hnd.
Defined.

(** C8: every AddressBook reachable from the empty one by [add_record],
    [find] and [delete] stores each record under its own name, and each of
    these operations keeps it so. *)
Theorem C8_keyed_by_name_invariant d :
  reachable d ->
  keyed_by_name d
  /\ (forall r, keyed_by_name (AddressBook.add_record r d))
  /\ (forall name, keyed_by_name (snd (AddressBook.delete name d)))
  /\ (forall name r, AddressBook.find name d = Some r ->
                     name_value (rec_name r) = name).
Proof.
  intros Hr.
  assert (Hk : keyed_by_name d).
  { induction Hr as [| r d _ IH | name d _ IH | name d _ IH].
    - constructor.
    - apply dict_set_keyed, IH.
    - exact IH.
    - apply delete_keyed, IH. }
  split; [exact Hk|]; split; [|split].
  - intros r; apply dict_set_keyed, Hk.
  - intros name; apply delete_keyed, Hk.
  - intros name r; apply find_keyed, Hk.
Qed.

Lemma C8_keyed_by_name_invariant_witness :
  (snd (AddressBook.delete john (AddressBook.add_record ann_record (AddressBook.add_record (record_with [num1]) [])))) = [(lit "ann", ann_record)]
  /\ reachable (snd (AddressBook.delete john (AddressBook.add_record ann_record (AddressBook.add_record (record_with [num1]) []))))
  /\ keyed_by_name (snd (AddressBook.delete john (AddressBook.add_record ann_record (AddressBook.add_record (record_with [num1]) []))))
  /\ (forall r, keyed_by_name (AddressBook.add_record r (snd (AddressBook.delete john (AddressBook.add_record ann_record (AddressBook.add_record (record_with [num1]) []))))))
  /\ (forall name, keyed_by_name (snd (AddressBook.delete name (snd (AddressBook.delete john (AddressBook.add_record ann_record (AddressBook.add_record (record_with [num1]) [])))))))
  /\ (forall name r, AddressBook.find name (snd (AddressBook.delete john (AddressBook.add_record ann_record (AddressBook.add_record (record_with [num1]) [])))) = Some r ->
                     name_value (rec_name r) = name).
Proof.
  split; [reflexivity|].
  assert (Hr : reachable (snd (AddressBook.delete john (AddressBook.add_record ann_record (AddressBook.add_record (record_with [num1]) [])))))
    by (apply reach_delete, reach_add, reach_add, reach_empty).
  split; [exact Hr|].
  apply C8_keyed_by_name_invariant; exact Hr.
Defined.

(* ------------------------------------------------------------------ *)
(** ** Parsing *)

Lemma py_isspace_char_iff c :
  py_isspace_char c = true
  <-> (9 <= c <= 13 \/ 28 <= c <= 32 \/ c = 133 \/ c = 160 \/ c = 5760
       \/ 8192 <= c <= 8202 \/ c = 8232 \/ c = 8233 \/ c = 8239
       \/ c = 8287 \/ c = 12288).
Proof.
  unfold py_isspace_char, in_range.
  rewrite !orb_true_iff, !andb_true_iff, !N.leb_le, !N.eqb_eq; tauto.
Qed.

Lemma not_space c :
  ~ (9 <= c <= 13 \/ 28 <= c <= 32 \/ c = 133 \/ c = 160 \/ c = 5760
     \/ 8192 <= c <= 8202 \/ c = 8232 \/ c = 8233 \/ c = 8239
     \/ c = 8287 \/ c = 12288) ->
  py_isspace_char c = false.
Proof. intros H; apply not_true_iff_false; rewrite py_isspace_char_iff; exact H. Qed.

Lemma lower_lookup_In c t d : lower_lookup c t = Some d -> In (c, d) t.
Proof.
  induction t as [|[s e] t IH]; simpl; [discriminate|].
  destruct (c <? s); [discriminate|].
  destruct (c =? s) eqn:E.
  - intros [= <-]; apply N.eqb_eq in E; subst; left; reflexivity.
  - intros H; right; exact (IH H).
Qed.

(** An entry of [lower_table] maps a non-space code point to a non-space
    code point that is its own lower case. *)
Definition lower_entry_ok (p : N * N) : bool :=
  negb (py_isspace_char (fst p)) && negb (py_isspace_char (snd p))
  && negb (snd p =? 304)
  && match lower_lookup (snd p) lower_table with
     | None => true
     | Some _ => false
     end.

Lemma lower_table_ok : forallb lower_entry_ok lower_table = true.
Proof. vm_compute; reflexivity. Qed.

Lemma py_lower_char_spec c :
  (c = 304 /\ py_lower_char c = [105; 775])
  \/ (c <> 304 /\ exists d, lower_lookup c lower_table = Some d
                            /\ py_lower_char c = [d])
  \/ (c <> 304 /\ lower_lookup c lower_table = None /\ py_lower_char c = [c]).
Proof.
  unfold py_lower_char; destruct (c =? 304) eqn:E.
  - left; apply N.eqb_eq in E; auto.
  - apply N.eqb_neq in E; right.
    destruct (lower_lookup c lower_table) as [d|] eqn:L.
    + left; split; [exact E | exists d; auto].
    + right; auto.
Qed.

Lemma py_lower_char_fixed d :
  d <> 304 -> lower_lookup d lower_table = None -> py_lower_char d = [d].
Proof.
  intros H1 H2; unfold py_lower_char.
  apply N.eqb_neq in H1; rewrite H1, H2; reflexivity.
Qed.

(** Lower-casing keeps whitespace as it is, maps every other character to
    non-empty non-whitespace, and what it produces is already lower case. *)
Lemma py_lower_char_facts c :
  (py_isspace_char c = true -> py_lower_char c = [c])
  /\ (py_isspace_char c = false ->
      py_lower_char c <> []
      /\ Forall (fun d => py_isspace_char d = false) (py_lower_char c))
  /\ Forall (fun d => py_lower_char d = [d]) (py_lower_char c).
Proof.
  destruct (py_lower_char_spec c)
    as [[-> ->]|[[Hne [d [Hd ->]]]|[Hne [Hn ->]]]].
  - split; [intros H; vm_compute in H; discriminate H|].
    split; [intros _; split; [discriminate|]|].
    + constructor; [reflexivity | constructor; [reflexivity | constructor]].
    + constructor; [reflexivity | constructor; [reflexivity | constructor]].
  - pose proof (proj1 (forallb_forall _ _) lower_table_ok _ (lower_lookup_In _ _ _ Hd))
      as Hok.
    unfold lower_entry_ok in Hok; cbn [fst snd] in Hok.
    rewrite !andb_true_iff, !negb_true_iff in Hok.
    destruct Hok as [[[Hc Hd'] H304] Hl].
    apply N.eqb_neq in H304.
    destruct (lower_lookup d lower_table) eqn:Ed; [discriminate|].
    split; [intros H; rewrite Hc in H; discriminate H|].
    split; [intros _; split; [discriminate | constructor; auto]|].
    constructor; [exact (py_lower_char_fixed d H304 Ed) | constructor].
  - split; [reflexivity|].
    split; [intros Hc; split; [discriminate | constructor; auto]|].
    constructor; [exact (py_lower_char_fixed c Hne Hn) | constructor].
Qed.

Lemma Forall_flat_map_intro {A B} (P : B -> Prop) (f : A -> list B) l :
  Forall (fun x => Forall P (f x)) l -> Forall P (flat_map f l).
Proof.
  induction 1; simpl; [constructor|]; apply Forall_app; auto.
Qed.

Lemma py_lower_fixed l :
  Forall (fun d => py_lower_char d = [d]) l -> py_lower l = l.
Proof.
  unfold py_lower; induction 1 as [|d l Hd _ IH]; simpl; [reflexivity|].
  rewrite Hd, IH; reflexivity.
Qed.

Lemma py_lower_nonempty c cur :
  py_isspace_char c = false -> py_lower (c :: cur) <> [].
Proof.
  intros Hc; unfold py_lower; simpl.
  destruct (proj1 (proj2 (py_lower_char_facts c)) Hc) as [Hne _].
  destruct (py_lower_char c); [contradiction | discriminate].
Qed.

Lemma split_aux_nonspace_prefix cur w s :
  Forall (fun c => py_isspace_char c = false) w ->
  split_aux cur (w ++ s) = split_aux (cur ++ w) s.
Proof.
  intros Hw; revert cur; induction Hw as [|c w Hc _ IH]; intros cur; simpl.
  - rewrite app_nil_r; reflexivity.
  - rewrite Hc, IH, <- app_assoc; reflexivity.
Qed.

Lemma split_aux_lower cur s :
  Forall (fun c => py_isspace_char c = false) cur ->
  split_aux (py_lower cur) (py_lower s) = map py_lower (split_aux cur s).
Proof.
  revert cur; induction s as [|c s IH]; intros cur Hcur.
  - change (py_lower []) with (@nil N); simpl.
    destruct cur as [|c0 cur]; [reflexivity|].
    inversion Hcur as [|x y Hc0 _]; subst; cbn [map].
    destruct (py_lower (c0 :: cur)) eqn:E;
      [exfalso; exact (py_lower_nonempty c0 cur Hc0 E) | reflexivity].
  - change (py_lower (c :: s)) with (py_lower_char c ++ py_lower s).
    destruct (py_isspace_char c) eqn:Ec.
    + rewrite (proj1 (py_lower_char_facts c) Ec); simpl; rewrite Ec.
      destruct cur as [|c0 cur]; [exact (IH [] (Forall_nil _))|].
      inversion Hcur as [|x y Hc0 _]; subst; cbn [map].
      destruct (py_lower (c0 :: cur)) eqn:E;
        [exfalso; exact (py_lower_nonempty c0 cur Hc0 E)|].
      f_equal; exact (IH [] (Forall_nil _)).
    + destruct (proj1 (proj2 (py_lower_char_facts c)) Ec) as [_ Hsp].
      rewrite split_aux_nonspace_prefix by exact Hsp.
      assert (Heq : py_lower cur ++ py_lower_char c = py_lower (cur ++ [c])).
      { unfold py_lower; rewrite flat_map_app; simpl; rewrite app_nil_r;
          reflexivity. }
      rewrite Heq, IH; [simpl; rewrite Ec; reflexivity|].
      apply Forall_app; split; [exact Hcur | constructor; [exact Ec | constructor]].
Qed.

Lemma split_aux_lstrip s : split_aux [] (py_lstrip s) = split_aux [] s.
Proof.
  induction s as [|c s IH]; simpl; [reflexivity|].
  destruct (py_isspace_char c) eqn:E; [exact IH|].
  simpl; rewrite E; reflexivity.
Qed.

Lemma split_aux_trailing cur s w :
  Forall (fun c => py_isspace_char c = true) w ->
  split_aux cur (s ++ w) = split_aux cur s.
Proof.
  intros Hw; revert cur; induction s as [|c s IH]; intros cur; simpl.
  - revert cur; induction Hw as [|c w Hc Hw IHw]; intros cur; simpl;
      [reflexivity|].
    rewrite Hc; destruct cur; simpl; rewrite (IHw []); reflexivity.
  - destruct (py_isspace_char c); [destruct cur|]; rewrite ?IH; reflexivity.
Qed.

Lemma lstrip_prefix s :
  exists w, Forall (fun c => py_isspace_char c = true) w /\ s = w ++ py_lstrip s.
Proof.
  induction s as [|c s [w [Hw Hs]]]; simpl.
  - exists []; auto.
  - destruct (py_isspace_char c) eqn:E.
    + exists (c :: w); split; [constructor; auto | simpl; f_equal; exact Hs].
    + exists []; auto.
Qed.

Lemma split_strip s : py_split (py_strip s) = py_split s.
Proof.
  unfold py_split, py_strip.
  destruct (lstrip_prefix (rev (py_lstrip s))) as [w [Hw Hs]].
  rewrite <- split_aux_lstrip with (s := s).
  set (u := py_lstrip s) in *.
  assert (Hu : u = rev (py_lstrip (rev u)) ++ rev w).
  { rewrite <- rev_app_distr, <- Hs, rev_involutive; reflexivity. }
  rewrite Hu at 2; rewrite split_aux_trailing; [reflexivity|].
  apply Forall_rev, Hw.
Qed.

(** The words of [py_lower s] are the lower-cased words of [s]. *)
Lemma split_lower_strip s :
  py_split (py_lower (py_strip s)) = map py_lower (py_split s).
Proof.
  rewrite <- (split_strip s).
  exact (split_aux_lower [] (py_strip s) (Forall_nil _)).
Qed.

(** C4 (counterexample): the arguments are not left as typed: on
    "add John 1234567890" the parser yields the argument "john". *)
Lemma C4_counterexample :
  ~ (forall line cmd args,
        parse_input line = Ok (cmd, args) -> exists w, py_split line = w :: args).
Proof.
  intros H.
  destruct (H (lit "add John 1234567890") _ _ eq_refl) as [w Hw].
  vm_compute in Hw; inversion Hw.
Qed.

(** C4 (amended): the parser lower-cases the whole line, command word and
    arguments alike: the command is the first whitespace-separated word of
    the line lower-cased and the arguments are the other words lower-cased.
    So names are stored and looked up in lower case, and "John" and "JOHN"
    address the same contact. *)
Theorem C4_parse_input_lowercases_line line :
  parse_input line
  = match py_split line with
    | [] => Raise (ValueError msg_unpack)
    | w :: ws => Ok (py_lower w, map py_lower ws)
    end
  /\ run [] [lit "add John 1234567890"; lit "phone JOHN"; lit "all"]
     = ([lit "Contact added."; lit "john: 1234567890";
         lit "Contact name: john, phones: 1234567890"],
        Waiting (AddressBook.add_record (record_with [num1]) [])).
Proof.
  split; [|reflexivity].
  unfold parse_input; rewrite split_lower_strip.
  destruct (py_split line); reflexivity.
Qed.

(* ------------------------------------------------------------------ *)
(** ** The command loop *)

Lemma input_error_ok {S} (f : M S pystr) s :
  exists v s', input_error f s = (Ok v, s').
Proof.
  unfold input_error; destruct (f s) as [[v|[e|e|e]] s']; eauto.
Qed.

Lemma print_result_no_crash f contacts e :
  print_result (input_error f) contacts <> Crash e.
Proof.
  unfold print_result; destruct (input_error_ok f contacts) as (v & s' & ->).
  discriminate.
Qed.

(** Every line with at least one word is handled without an exception
    escaping [main]: the decorated handlers catch what they raise. *)
Lemma main_step_no_crash contacts line e :
  py_split line <> [] -> main_step contacts line <> Crash e.
Proof.
  intros Hne Hcrash; unfold main_step, parse_input in Hcrash.
  rewrite split_lower_strip in Hcrash.
  destruct (py_split line) as [|w ws]; [contradiction|]; simpl map in Hcrash.
  cbv beta iota in Hcrash.
  repeat match type of Hcrash with
         | context [if ?b then _ else _] => destruct b
         end;
    try discriminate;
    eapply print_result_no_crash; exact Hcrash.
Qed.

(** C5 (code bug): an empty or whitespace-only line makes
    [cmd, *args = ...split()] raise [ValueError] in [parse_input], which is
    not decorated with [input_error] and is called outside any [try]: the
    exception escapes [main] and the session ends. *)
Theorem C5_empty_line_escapes contacts :
  main_step contacts [] = Crash (ValueError msg_unpack)
  /\ main_step contacts (lit "   ") = Crash (ValueError msg_unpack)
  /\ run [] [lit "hello"; lit ""; lit "all"]
     = ([lit "How can I help you?"], Crashed (ValueError msg_unpack)).
Proof. split; [|split]; reflexivity. Qed.

(* ------------------------------------------------------------------ *)
(** ** Rendering *)

(** C9: a record renders as "Contact name: {name}, phones: " followed by
    its phone values in order separated by "; " (nothing after the prefix
    for an empty list); an AddressBook renders as its records' renderings
    in insertion order separated by newlines, the empty one as "". *)
Theorem C9_rendering :
  (forall n, Record_str (mkRecord n [])
             = lit "Contact name: " ++ name_value n ++ lit ", phones: ")
  /\ (forall n p ps,
        Record_str (mkRecord n (p :: ps))
        = lit "Contact name: " ++ name_value n ++ lit ", phones: "
          ++ phone_value p
          ++ concat (map (fun q => lit "; " ++ phone_value q) ps))
  /\ AddressBook.str [] = []
  /\ (forall kv d,
        AddressBook.str (kv :: d)
        = Record_str (snd kv)
          ++ concat (map (fun kv' => AddressBook.newline ++ Record_str (snd kv')) d)).
Proof.
  split; [|split; [|split]].
  - intros n; unfold Record_str; cbn [phones rec_name map py_join].
    rewrite app_nil_r; reflexivity.
  - intros n p ps; unfold Record_str; cbn [phones rec_name map py_join].
    rewrite map_map; reflexivity.
  - reflexivity.
  - intros kv d; unfold AddressBook.str; cbn [map py_join].
    rewrite map_map; reflexivity.
Qed.

(* ------------------------------------------------------------------ *)
(** ** A contact left without phones *)

(** C10: a [change] with an invalid new number leaves the contact stored
    with no phone; a later [change] of a contact stored with no phone reads
    [record.phones[0]], raises [IndexError], and [input_error] reports
    "Error: Invalid command format." with the book unchanged. *)
Theorem C10_change_on_phoneless_contact contacts name r new_phone :
  AddressBook.find name contacts = Some r -> phones r = [] ->
  change_contact [name; new_phone] contacts = (Ok msg_invalid_format, contacts)
  /\ run [] [lit "add john 1234567890"; lit "change john 123";
             lit "change john 1112223333"]
     = ([lit "Contact added."; lit "Error: " ++ msg_invalid_phone;
         msg_invalid_format],
        Waiting [(john, mkRecord (mkName john) [])]).
Proof.
  intros Hfind Hnil; split; [|reflexivity].
  unfold change_contact, input_error, change_contact_body.
  rewrite Hfind, Hnil; reflexivity.
Qed.

Lemma C10_change_on_phoneless_contact_witness :
  AddressBook.find john [(john, mkRecord (mkName john) [])]
    = Some (mkRecord (mkName john) [])
  /\ phones (mkRecord (mkName john) []) = []
  /\ change_contact [john; lit "1112223333"] [(john, mkRecord (mkName john) [])]
     = (Ok msg_invalid_format, [(john, mkRecord (mkName john) [])])
  /\ run [] [lit "add john 1234567890"; lit "change john 123";
             lit "change john 1112223333"]
     = ([lit "Contact added."; lit "Error: " ++ msg_invalid_phone;
         msg_invalid_format],
        Waiting [(john, mkRecord (mkName john) [])]).
Proof.
  split; [reflexivity|]; split; [reflexivity|].
  apply C10_change_on_phoneless_contact with (r := mkRecord (mkName john) []);
    reflexivity.
Defined.

(* ================================================================== *)
(** * Further properties of the code *)

(* ------------------------------------------------------------------ *)
(** ** Name, Record and Record methods *)

(** [find_phone s] returns the first phone of the list, in order, whose
    value is [s], and returns [None] exactly when no phone has value [s]. *)
Theorem X_find_phone_first r s p :
  find_phone s r = Some p ->
  phone_value p = s
  /\ exists l1 l2, phones r = l1 ++ p :: l2
                   /\ Forall (fun q => phone_value q <> s) l1.
Proof.
  intros Hf; destruct (find_split _ _ _ Hf) as (l1 & l2 & Hl & Hl1 & Hp).
  apply str_eqb_eq in Hp; split; [exact Hp|].
  exists l1, l2; split; [exact Hl|].
  eapply Forall_impl; [|exact Hl1]; intros q Hq Heq.
  rewrite <- str_eqb_eq, Hq in Heq; discriminate.
Qed.

Lemma X_find_phone_first_witness :
  find_phone num1 (record_with [lit "0000000000"; num1; num1])
    = Some (mkPhone 2 num1)
  /\ phone_value (mkPhone 2 num1) = num1
  /\ exists l1 l2, phones (record_with [lit "0000000000"; num1; num1])
                   = l1 ++ mkPhone 2 num1 :: l2
                   /\ Forall (fun q => phone_value q <> num1) l1.
Proof.
  assert (Hf : find_phone num1 (record_with [lit "0000000000"; num1; num1])
               = Some (mkPhone 2 num1)) by reflexivity.
  split; [exact Hf|]; apply X_find_phone_first; exact Hf.
Defined.

(** [edit_phone old new] on a record with no phone of value [old] raises
    "Old phone number not found" and changes nothing, whatever [new] is. *)
Theorem X_edit_phone_missing r old new_phone :
  (forall p, In p (phones r) -> phone_value p <> old) ->
  edit_phone old new_phone r = (Raise (ValueError msg_old_not_found), r).
Proof.
  intros H; apply find_phone_none in H; unfold edit_phone; rewrite H; reflexivity.
Qed.

Lemma X_edit_phone_missing_witness :
  (forall p, In p (phones (record_with [num1])) -> phone_value p <> bad_num)
  /\ edit_phone bad_num num1 (record_with [num1])
     = (Raise (ValueError msg_old_not_found), record_with [num1]).
Proof.
  assert (H : forall p, In p (phones (record_with [num1])) -> phone_value p <> bad_num).
  { simpl; intros p [<-|[]]; discriminate. }
  split; [exact H|]; apply X_edit_phone_missing; exact H.
Defined.

(** A successful [edit_phone old new] removes the first phone of value
    [old] and appends the new number at the END of the list: the new
    number does not take the old one's position. *)
Theorem X_edit_phone_moves_to_end r old new_phone p :
  wf_phones (phones r) -> find_phone old r = Some p ->
  validate_phone new_phone = true ->
  exists l1 l2,
    phones r = l1 ++ p :: l2
    /\ edit_phone old new_phone r
       = (Ok tt, set_phones r (l1 ++ l2 ++ [mkPhone (fresh_id (l1 ++ l2)) new_phone])).
Proof.
  intros Hwf Hf Hv.
  destruct (remove_phone_first old r p Hwf Hf) as (l1 & l2 & Hl & _ & _ & Hrem).
  exists l1, l2; split; [exact Hl|].
  unfold edit_phone; rewrite Hf; unfold bind; rewrite Hrem.
  unfold add_phone, Phone_new; rewrite Hv; simpl.
  rewrite <- app_assoc; reflexivity.
Qed.

Lemma X_edit_phone_moves_to_end_witness :
  wf_phones (phones (record_with [num1; lit "0000000000"]))
  /\ exists l1 l2,
    phones (record_with [num1; lit "0000000000"]) = l1 ++ mkPhone 1 num1 :: l2
    /\ edit_phone num1 (lit "1112223333") (record_with [num1; lit "0000000000"])
       = (Ok tt, set_phones (record_with [num1; lit "0000000000"])
                   (l1 ++ l2 ++ [mkPhone (fresh_id (l1 ++ l2)) (lit "1112223333")])).
Proof.
  assert (Hwf : wf_phones (phones (record_with [num1; lit "0000000000"]))).
  { apply NoDup_wf_phones; simpl; repeat constructor; simpl; intuition discriminate. }
  split; [exact Hwf|].
  apply X_edit_phone_moves_to_end; [exact Hwf | reflexivity | reflexivity].
Defined.

(* ------------------------------------------------------------------ *)
(** ** AddressBook *)

Lemma dict_get_del k d k' :
  AddressBook.dict_get k' (AddressBook.dict_del k d)
  = if str_eqb k' k then None else AddressBook.dict_get k' d.
Proof.
  unfold AddressBook.dict_del.
  induction d as [|[k0 v0] d IH]; simpl.
  - destruct (str_eqb k' k); reflexivity.
  - destruct (str_eqb k0 k) eqn:E0; simpl.
    + apply str_eqb_eq in E0; subst k0; rewrite IH.
      destruct (str_eqb k' k) eqn:E1; [reflexivity|].
      destruct (str_eqb k k') eqn:E2; [|reflexivity].
      apply str_eqb_eq in E2; subst; rewrite str_eqb_refl in E1; discriminate.
    + rewrite IH; destruct (str_eqb k0 k') eqn:E1; [|reflexivity].
      apply str_eqb_eq in E1; subst k0; rewrite E0; reflexivity.
Qed.

Lemma dict_get_not_mem k d :
  AddressBook.dict_mem k d = false -> AddressBook.dict_get k d = None.
Proof.
  unfold AddressBook.dict_mem; induction d as [|[k0 v0] d IH]; simpl; [auto|].
  rewrite orb_false_iff; intros [H1 H2]; rewrite H1; auto.
Qed.

(** After [delete name], successful or not, [find name] gives [None] and
    [find] on every other name gives what it gave before. *)
Theorem X_find_after_delete d name k :
  AddressBook.find k (snd (AddressBook.delete name d))
  = if str_eqb k name then None else AddressBook.find k d.
Proof.
  unfold AddressBook.delete, AddressBook.find.
  destruct (AddressBook.dict_mem name d) eqn:Hm; simpl; [apply dict_get_del|].
  destruct (str_eqb k name) eqn:E; [|reflexivity].
  apply str_eqb_eq in E; subst; apply dict_get_not_mem, Hm.
Qed.

(* ------------------------------------------------------------------ *)
(** ** Command handlers *)

Lemma dict_set_absent k v d :
  AddressBook.dict_get k d = None -> AddressBook.dict_set k v d = d ++ [(k, v)].
Proof.
  induction d as [|[k0 v0] d IH]; simpl; [reflexivity|].
  destruct (str_eqb k0 k) eqn:E; [discriminate|].
  intros H; rewrite IH; auto.
Qed.

(** The [add] command: with a wrong number of arguments it reports the
    expected arguments; for a new name and a valid phone it appends a
    record holding just that phone; for a new name and an invalid phone it
    reports the error and, unlike [change], changes nothing. *)
Theorem X_add_contact_spec c args :
  ((length args <> 2)%nat ->
   add_contact args c = (Ok (lit "Error: " ++ msg_add_args), c))
  /\ (forall name phone, args = [name; phone] ->
      AddressBook.find name c = None -> name <> [] ->
      (validate_phone phone = true ->
       add_contact args c
       = (Ok (lit "Contact added."),
          c ++ [(name, mkRecord (mkName name) [mkPhone 1 phone])]))
      /\ (validate_phone phone = false ->
          add_contact args c = (Ok (lit "Error: " ++ msg_invalid_phone), c))).
Proof.
  split.
  - intros Hlen; unfold add_contact, input_error, add_contact_body.
    destruct args as [|a [|b [|x args]]]; try reflexivity; simpl in Hlen; lia.
  - intros name phone -> Hnone Hne.
    unfold add_contact, input_error, add_contact_body; rewrite Hnone.
    destruct name as [|ch name]; [contradiction|]; simpl Record_new.
    unfold add_phone, Phone_new; split; intros Hv; rewrite Hv; simpl; [|reflexivity].
    unfold AddressBook.add_record; simpl.
    rewrite dict_set_absent; [reflexivity | exact Hnone].
Qed.

(** The [change] command on a contact whose phones are [p :: rest]: the
    first phone is removed and, when the new number is valid, the new one
    is appended after [rest]; when it is invalid the error is reported and
    the contact keeps [rest] only.  A name that is not stored is reported
    as "Contact not found." and a wrong argument count as such; in both
    cases nothing changes. *)
Theorem X_change_contact_spec c args :
  ((length args <> 2)%nat ->
   change_contact args c = (Ok (lit "Error: " ++ msg_change_args), c))
  /\ (forall name new_phone, args = [name; new_phone] ->
      AddressBook.find name c = None ->
      change_contact args c = (Ok msg_contact_not_found, c))
  /\ (forall name new_phone r p rest, args = [name; new_phone] ->
      AddressBook.find name c = Some r -> phones r = p :: rest ->
      change_contact args c
      = if validate_phone new_phone
        then (Ok (lit "Contact updated."),
              AddressBook.dict_set name
                (set_phones r (rest ++ [mkPhone (fresh_id rest) new_phone])) c)
        else (Ok (lit "Error: " ++ msg_invalid_phone),
              AddressBook.dict_set name (set_phones r rest) c)).
Proof.
  split; [|split].
  - intros Hlen; unfold change_contact, input_error, change_contact_body.
    destruct args as [|a [|b [|x args]]]; try reflexivity; simpl in Hlen; lia.
  - intros name new_phone -> Hnone.
    unfold change_contact, input_error, change_contact_body; rewrite Hnone.
    reflexivity.
  - intros name new_phone r p rest -> Hfind Hph.
    unfold change_contact, input_error, change_contact_body; rewrite Hfind, Hph.
    assert (Hf : find_phone (phone_value p) r = Some p).
    { unfold find_phone; rewrite Hph; simpl; rewrite str_eqb_refl; reflexivity. }
    unfold edit_phone; rewrite Hf; unfold bind, remove_phone; rewrite Hf, Hph.
    simpl list_remove; rewrite Nat.eqb_refl.
    unfold add_phone, Phone_new; simpl phones.
    destruct (validate_phone new_phone); reflexivity.
Qed.

(* ------------------------------------------------------------------ *)
(** ** Parsing and the command loop *)

Lemma split_aux_nil_iff cur s :
  split_aux cur s = [] <-> cur = [] /\ Forall (fun c => py_isspace_char c = true) s.
Proof.
  revert cur; induction s as [|c s IH]; intros cur; simpl.
  - destruct cur; split; try discriminate; auto.
    intros [H _]; discriminate.
  - destruct (py_isspace_char c) eqn:E.
    + destruct cur as [|c0 cur].
      * rewrite IH; split; [intros [_ H]; auto | intros [_ H]; inversion H; auto].
      * split; [discriminate | intros [H _]; discriminate].
    + rewrite IH; split.
      * intros [H _]; destruct cur; discriminate.
      * intros [_ H]; inversion H; congruence.
Qed.

Lemma parse_input_words line :
  parse_input line
  = match py_split line with
    | [] => Raise (ValueError msg_unpack)
    | w :: ws => Ok (py_lower w, map py_lower ws)
    end.
Proof.
  unfold parse_input; rewrite split_lower_strip.
  destruct (py_split line); reflexivity.
Qed.

(** [parse_input] raises exactly on the lines made of whitespace only
    (the empty line included); on every other line it returns a command. *)
Theorem X_parse_input_fails_iff_blank line :
  (exists e, parse_input line = Raise e)
  <-> Forall (fun c => py_isspace_char c = true) line.
Proof.
  rewrite parse_input_words; unfold py_split.
  pose proof (split_aux_nil_iff [] line) as H.
  destruct (split_aux [] line) as [|w ws].
  - split; [intros _; apply H; reflexivity | intros _; eauto].
  - split; [intros [e He]; discriminate|].
    intros Hs; assert (Hn : w :: ws = []) by (apply H; auto); discriminate.
Qed.

Lemma print_result_continue h c o c' :
  print_result h c = Continue o c' -> c' = snd (h c).
Proof.
  unfold print_result; destruct (h c) as [[v|e] c'']; simpl;
    intros H; inversion H; reflexivity.
Qed.

Lemma print_result_not_exit h c o : print_result h c <> Exit o.
Proof. unfold print_result; destruct (h c) as [[v|e] c'']; discriminate. Qed.

Ltac split_ifs H :=
  repeat match type of H with
         | context [if ?b then _ else _] => let E := fresh "E" in destruct b eqn:E
         end.

(** The loop ends ([break]) exactly on the lines whose first word is
    "close" or "exit" in any letter case; no other line ends it normally. *)
Theorem X_main_step_exit_iff c line :
  (exists o, main_step c line = Exit o)
  <-> exists w ws, py_split line = w :: ws
                   /\ (py_lower w = lit "close" \/ py_lower w = lit "exit").
Proof.
  unfold main_step; rewrite parse_input_words.
  destruct (py_split line) as [|w ws].
  - split; [intros [o Ho]; discriminate | intros (w & ws & H & _); discriminate].
  - cbv beta iota.
    destruct (is_cmd (py_lower w) "close" || is_cmd (py_lower w) "exit") eqn:Ec.
    + split; [intros _ | intros _; eauto].
      exists w, ws; split; [reflexivity|].
      apply orb_true_iff in Ec as [Ec|Ec]; apply str_eqb_eq in Ec; auto.
    + split.
      * intros [o Ho]; exfalso.
        split_ifs Ho; try discriminate; eapply print_result_not_exit; exact Ho.
      * intros (w' & ws' & [= <- <-] & Hw); exfalso.
        unfold is_cmd in Ec; destruct Hw as [Hw|Hw]; rewrite Hw in Ec;
          simpl in Ec; discriminate.
Qed.

Lemma input_error_state {S} (f : M S pystr) s : snd (input_error f s) = snd (f s).
Proof. unfold input_error; destruct (f s) as [[v|[e|e|e]] s']; reflexivity. Qed.

(** What [add] does to the book. *)
Lemma add_contact_cases args c :
  snd (add_contact args c) = c
  \/ exists name phone,
       args = [name; phone] /\ AddressBook.find name c = None
       /\ name <> [] /\ validate_phone phone = true
       /\ snd (add_contact args c)
          = c ++ [(name, mkRecord (mkName name) [mkPhone 1 phone])].
Proof.
  unfold add_contact; rewrite input_error_state; unfold add_contact_body.
  destruct args as [|name [|phone [|x args]]]; try (left; reflexivity).
  destruct (AddressBook.find name c) eqn:Hf; [left; reflexivity|].
  destruct name as [|ch name]; [left; reflexivity|]; simpl Record_new.
  destruct (validate_phone phone) eqn:Hv.
  - right; exists (ch :: name), phone; repeat split; auto; [discriminate|].
    unfold add_phone, Phone_new; rewrite Hv; simpl.
    unfold AddressBook.add_record; simpl; apply dict_set_absent, Hf.
  - left; unfold add_phone, Phone_new; rewrite Hv; reflexivity.
Qed.

(** What [change] does to the book. *)
Lemma change_contact_cases args c :
  snd (change_contact args c) = c
  \/ exists name new_phone r p rest,
       args = [name; new_phone] /\ AddressBook.find name c = Some r
       /\ phones r = p :: rest
       /\ snd (change_contact args c)
          = AddressBook.dict_set name
              (set_phones r (if validate_phone new_phone
                             then rest ++ [mkPhone (fresh_id rest) new_phone]
                             else rest)) c.
Proof.
  unfold change_contact; rewrite input_error_state; unfold change_contact_body.
  destruct args as [|name [|new_phone [|x args]]]; try (left; reflexivity).
  destruct (AddressBook.find name c) as [r|] eqn:Hf; [|left; reflexivity].
  destruct (phones r) as [|p rest] eqn:Hph; [left; reflexivity|].
  right; exists name, new_phone, r, p, rest; repeat split; auto.
  assert (Hfp : find_phone (phone_value p) r = Some p).
  { unfold find_phone; rewrite Hph; simpl; rewrite str_eqb_refl; reflexivity. }
  unfold edit_phone; rewrite Hfp; unfold bind, remove_phone; rewrite Hfp, Hph.
  simpl list_remove; rewrite Nat.eqb_refl.
  unfold add_phone, Phone_new; simpl phones.
  destruct (validate_phone new_phone); reflexivity.
Qed.

(** What one line does to the book: nothing, or the [add] or [change]
    handler applied to the lower-cased arguments. *)
Lemma main_step_state c line o c' :
  main_step c line = Continue o c' ->
  c' = c
  \/ exists w ws, py_split line = w :: ws
       /\ ((py_lower w = lit "add" /\ c' = snd (add_contact (map py_lower ws) c))
           \/ (py_lower w = lit "change"
               /\ c' = snd (change_contact (map py_lower ws) c))).
Proof.
  unfold main_step; rewrite parse_input_words.
  destruct (py_split line) as [|w ws]; [discriminate|]; cbv beta iota.
  intros H; split_ifs H; try discriminate;
    try (inversion H; left; reflexivity);
    apply print_result_continue in H; subst c'.
  - right; exists w, ws; split; [reflexivity|]; left.
    split; [apply str_eqb_eq; exact E1 | reflexivity].
  - right; exists w, ws; split; [reflexivity|]; right.
    split; [apply str_eqb_eq; exact E2 | reflexivity].
  - left; unfold show_phone; rewrite input_error_state; unfold show_phone_body.
    destruct (map py_lower ws) as [|a [|b l]]; try reflexivity.
    destruct (AddressBook.find a c); reflexivity.
  - left; unfold show_all; rewrite input_error_state; unfold show_all_body.
    destruct c; reflexivity.
Qed.

(** No line removes a contact or reorders the contacts: the names of the
    book after a line are the names before, possibly followed by one new
    name; a line whose first word is neither "add" nor "change" (in any
    letter case) leaves the book exactly as it was. *)
Theorem X_main_step_keys_grow c line o c' :
  main_step c line = Continue o c' ->
  (exists suffix, map fst c' = map fst c ++ suffix /\ (length suffix <= 1)%nat)
  /\ ((forall w ws, py_split line = w :: ws ->
       py_lower w <> lit "add" /\ py_lower w <> lit "change") -> c' = c).
Proof.
  intros H; apply main_step_state in H.
  split.
  - destruct H as [->|(w & ws & _ & [[_ ->]|[_ ->]])].
    + exists []; rewrite app_nil_r; auto.
    + destruct (add_contact_cases (map py_lower ws) c) as [->|(n & ph & _ & _ & _ & _ & ->)].
      * exists []; rewrite app_nil_r; auto.
      * exists [n]; rewrite map_app; auto.
    + destruct (change_contact_cases (map py_lower ws) c)
        as [->|(n & ph & r & p & rest & _ & _ & _ & ->)].
      * exists []; rewrite app_nil_r; auto.
      * rewrite dict_set_keys; destruct (AddressBook.dict_mem n c).
        -- exists []; rewrite app_nil_r; auto.
        -- exists [n]; auto.
  - intros Hnot; destruct H as [->|(w & ws & Hs & [[Hw _]|[Hw _]])]; [reflexivity| |];
      exfalso; destruct (Hnot w ws Hs); contradiction.
Qed.

Lemma X_main_step_keys_grow_witness :
  main_step (AddressBook.add_record ann_record (AddressBook.add_record (record_with [num1]) [])) (lit "add Bob 1112223333")
    = Continue (lit "Contact added.") [(john, record_with [num1]); (lit "ann", ann_record); (lit "bob", mkRecord (mkName (lit "bob")) [mkPhone 1 (lit "1112223333")])]
  /\ (exists suffix,
        map fst [(john, record_with [num1]); (lit "ann", ann_record); (lit "bob", mkRecord (mkName (lit "bob")) [mkPhone 1 (lit "1112223333")])] = map fst (AddressBook.add_record ann_record (AddressBook.add_record (record_with [num1]) [])) ++ suffix /\ (length suffix <= 1)%nat)
  /\ ((forall w ws, py_split (lit "add Bob 1112223333") = w :: ws ->
       py_lower w <> lit "add" /\ py_lower w <> lit "change") ->
      [(john, record_with [num1]); (lit "ann", ann_record); (lit "bob", mkRecord (mkName (lit "bob")) [mkPhone 1 (lit "1112223333")])] = (AddressBook.add_record ann_record (AddressBook.add_record (record_with [num1]) []))).
Proof.
  assert (H : main_step (AddressBook.add_record ann_record (AddressBook.add_record (record_with [num1]) [])) (lit "add Bob 1112223333")
              = Continue (lit "Contact added.") [(john, record_with [num1]); (lit "ann", ann_record); (lit "bob", mkRecord (mkName (lit "bob")) [mkPhone 1 (lit "1112223333")])])
    by reflexivity.
  split; [exact H|]; exact (X_main_step_keys_grow _ _ _ _ H).
Defined.

(* ------------------------------------------------------------------ *)
(** ** What a session keeps *)

Lemma split_aux_words cur s :
  Forall (fun c => py_isspace_char c = false) cur ->
  Forall (fun w => w <> [] /\ Forall (fun c => py_isspace_char c = false) w)
         (split_aux cur s).
Proof.
  revert cur; induction s as [|c s IH]; intros cur Hcur; simpl.
  - destruct cur; constructor; auto; split; [discriminate | exact Hcur].
  - destruct (py_isspace_char c) eqn:E.
    + destruct cur; [apply IH; constructor|].
      constructor; [split; [discriminate|exact Hcur]|apply IH; constructor].
    + apply IH, Forall_app; split; auto.
Qed.

(** A word of the stored data: non-empty, without whitespace, lower case. *)
Definition word_ok (w : pystr) : Prop :=
  w <> [] /\ Forall (fun c => py_isspace_char c = false) w /\ py_lower w = w.

Lemma args_words_ok line w ws :
  py_split line = w :: ws -> Forall word_ok (map py_lower ws).
Proof.
  intros Hs; pose proof (split_aux_words [] line (Forall_nil _)) as H.
  unfold py_split in Hs; rewrite Hs in H; inversion H as [|x y _ Hws]; subst.
  apply Forall_map; eapply Forall_impl; [|exact Hws].
  intros v [Hne Hsp]; split; [|split].
  - destruct v as [|c v]; [contradiction|].
    inversion Hsp; subst; apply py_lower_nonempty; assumption.
  - apply Forall_flat_map_intro; eapply Forall_impl; [|exact Hsp].
    intros c Hc; exact (proj2 (proj1 (proj2 (py_lower_char_facts c)) Hc)).
  - apply py_lower_fixed, Forall_flat_map_intro, Forall_forall.
    intros c _; exact (proj2 (proj2 (py_lower_char_facts c))).
Qed.

Lemma dict_get_In k d v : AddressBook.dict_get k d = Some v -> In (k, v) d.
Proof.
  induction d as [|[k0 v0] d IH]; simpl; [discriminate|].
  destruct (str_eqb k0 k) eqn:E; [|auto].
  intros [= <-]; apply str_eqb_eq in E; subst; auto.
Qed.

Lemma dict_get_None_notin k d :
  AddressBook.dict_get k d = None -> ~ In k (map fst d).
Proof.
  induction d as [|[k0 v0] d IH]; simpl; [auto|].
  destruct (str_eqb k0 k) eqn:E; [discriminate|].
  intros H [->|Hin]; [rewrite str_eqb_refl in E; discriminate | exact (IH H Hin)].
Qed.

Lemma Forall_dict_set (P : pystr * Record_ -> Prop) k v d :
  Forall P d -> P (k, v) -> Forall P (AddressBook.dict_set k v d).
Proof.
  induction 1 as [|[k0 v0] d H0 Hd IH]; simpl; intros Hk; [auto|].
  destruct (str_eqb k0 k) eqn:E; [apply str_eqb_eq in E; subst|]; auto.
Qed.

(** The conditions every stored entry meets during a session. *)
Definition entry_ok (kv : pystr * Record_) : Prop :=
  fst kv = name_value (rec_name (snd kv)) /\ word_ok (fst kv)
  /\ (length (phones (snd kv)) <= 1)%nat
  /\ Forall (fun p => validate_phone (phone_value p) = true) (phones (snd kv)).

Definition session_inv (c : AddressBook.t) : Prop :=
  NoDup (map fst c) /\ Forall entry_ok c.

Lemma add_contact_inv args c :
  Forall word_ok args -> session_inv c -> session_inv (snd (add_contact args c)).
Proof.
  intros Hargs [Hnd Hall].
  destruct (add_contact_cases args c) as [->|(n & ph & -> & Hf & _ & Hv & ->)];
    [split; auto|].
  inversion Hargs as [|x y Hn _]; subst.
  split.
  - rewrite map_app; apply NoDup_app; [exact Hnd | repeat constructor; simpl; tauto|].
    intros a Ha [<-|[]]; exact (dict_get_None_notin _ _ Hf Ha).
  - apply Forall_app; split; [exact Hall|].
    constructor; [|constructor].
    split; [reflexivity | split; [exact Hn | split; [simpl; lia|]]].
    simpl; constructor; [exact Hv | constructor].
Qed.

Lemma change_contact_inv args c :
  session_inv c -> session_inv (snd (change_contact args c)).
Proof.
  intros [Hnd Hall].
  destruct (change_contact_cases args c)
    as [->|(n & nph & r & p & rest & -> & Hf & Hph & ->)]; [split; auto|].
  apply dict_get_In in Hf as Hin.
  pose proof (proj1 (Forall_forall _ _) Hall _ Hin) as (Hk & Hw & Hlen & Hval).
  simpl in Hk, Hw, Hlen, Hval; rewrite Hph in Hlen, Hval.
  destruct rest as [|q rest]; [|simpl in Hlen; lia].
  split.
  - rewrite dict_set_keys.
    replace (AddressBook.dict_mem n c) with true; [exact Hnd|].
    symmetry; apply dict_mem_In, in_map_iff; exists (n, r); auto.
  - apply Forall_dict_set; [exact Hall|].
    unfold entry_ok, set_phones; simpl fst; simpl snd; simpl rec_name; simpl phones.
    split; [exact Hk | split; [exact Hw|]].
    destruct (validate_phone nph) eqn:Hv; simpl.
    + split; [lia | constructor; [exact Hv | constructor]].
    + split; [lia | constructor].
Qed.

Lemma main_step_inv c line o c' :
  session_inv c -> main_step c line = Continue o c' -> session_inv c'.
Proof.
  intros Hinv H; apply main_step_state in H.
  destruct H as [->|(w & ws & Hs & [[_ ->]|[_ ->]])]; [exact Hinv| |].
  - apply add_contact_inv; [eapply args_words_ok; exact Hs | exact Hinv].
  - apply change_contact_inv, Hinv.
Qed.

(** Whatever lines the user enters, as long as the session runs, the book
    has distinct names, each record is stored under its own name, each
    name is a non-empty lower-case word without whitespace, and each
    contact holds at most one phone, which passes [validate_phone]. *)
Theorem X_session_invariant lines outs c :
  run [] lines = (outs, Waiting c) ->
  NoDup (map fst c) /\ Forall entry_ok c.
Proof.
  assert (Hgen : forall c0 lines outs c,
             session_inv c0 -> run c0 lines = (outs, Waiting c) -> session_inv c).
  { intros c0 ls; revert c0; induction ls as [|l ls IH]; intros c0 os c1 Hinv; simpl.
    - intros [= _ <-]; exact Hinv.
    - destruct (main_step c0 l) as [o c0'| o | e] eqn:Hstep; [|discriminate|discriminate].
      destruct (run c0' ls) as [os' s] eqn:Hrun; intros [= _ ->].
      eapply IH; [eapply main_step_inv; eassumption | exact Hrun]. }
  intros H; apply (Hgen [] lines outs c); [split; constructor | exact H].
Qed.

Lemma X_session_invariant_witness :
  run [] [lit "add Ann 1234567890"; lit "change ann 123"; lit "add BOB 0000000000";
          lit "change Bob 1112223333"]
    = ([lit "Contact added."; lit "Error: " ++ msg_invalid_phone;
        lit "Contact added."; lit "Contact updated."],
       Waiting [(lit "ann", mkRecord (mkName (lit "ann")) []);
                (lit "bob", mkRecord (mkName (lit "bob")) [mkPhone 1 (lit "1112223333")])])
  /\ NoDup (map fst [(lit "ann", mkRecord (mkName (lit "ann")) []);
                     (lit "bob", mkRecord (mkName (lit "bob")) [mkPhone 1 (lit "1112223333")])])
  /\ Forall entry_ok [(lit "ann", mkRecord (mkName (lit "ann")) []);
                      (lit "bob", mkRecord (mkName (lit "bob")) [mkPhone 1 (lit "1112223333")])].
Proof.
  assert (H : run [] [lit "add Ann 1234567890"; lit "change ann 123";
                      lit "add BOB 0000000000"; lit "change Bob 1112223333"]
              = ([lit "Contact added."; lit "Error: " ++ msg_invalid_phone;
                  lit "Contact added."; lit "Contact updated."],
                 Waiting [(lit "ann", mkRecord (mkName (lit "ann")) []);
                          (lit "bob", mkRecord (mkName (lit "bob"))
                                        [mkPhone 1 (lit "1112223333")])]))
    by reflexivity.
  split; [exact H|]; exact (X_session_invariant _ _ _ H).
Defined.
